(** * Dynamic FBA right-hand sides of [part2_community_dfba.ipynb]

    A shallow embedding of the three ODE right-hand sides of the notebook
    ([sc_dfba], [ec_dfba], [community_dfba]) together with the part of the
    cobra model object they touch: the lower bounds of the exchange
    reactions, the [with model:] scope and the call of the LP solver.

    Numbers.  The notebook computes with IEEE binary64 values (numpy
    arrays and Python floats).  They are embedded as exact rationals [Q]:
    every arithmetic operation is the exact one, comparison [==] is
    numeric equality ([Qeq]), and there is no rounding, infinity or NaN.
    All statements below are statements about this exact arithmetic,
    except those on [kinetic_bound_binary64], which evaluates the kinetic
    expression on binary64 numbers as the notebook does.

    The LP solver is not part of the notebook; it is a [Variable] of the
    section: a function from the model's current bounds to either an
    exception or a solution (status string and flux table). *)

From Stdlib Require Import QArith Qabs Lqa Lia String List PrimFloat.
From stdpp Require Import gmap strings list fin_maps.

Local Open Scope Q_scope.
Local Open Scope string_scope.

(** ** Exceptions and the effect monad *)

(** The Python exceptions the three functions can run into. *)
Inductive exn : Type :=
| IndexError (i : nat)
| AttributeError (name : string)
| SolverError (msg : string).

(** A computation on a mutable store [S] that either returns a value or
    raises; the store survives a raise, as a Python object does. *)
Definition Eff (S A : Type) : Type := S -> (exn + A) * S.

Definition ret {S A} (a : A) : Eff S A := fun s => (inr a, s).

Definition bind {S A B} (c : Eff S A) (k : A -> Eff S B) : Eff S B :=
  fun s =>
    match c s with
    | (inr a, s') => k a s'
    | (inl e, s') => (inl e, s')
    end.

(** A pure step that may raise. *)
Definition lift {S A} (r : exn + A) : Eff S A := fun s => (r, s).

Declare Scope eff_scope.
Delimit Scope eff_scope with eff.
Notation "'let!' x ':=' c 'in' k" := (bind c (fun x => k))
  (at level 10, x name, c at level 100, k at level 200) : eff_scope.
Notation "'do!' c 'in' k" := (bind c (fun _ => k))
  (at level 10, c at level 100, k at level 200) : eff_scope.
Local Open Scope eff_scope.

(** ** numpy vectors *)

(** [0*x]: the scalar is multiplied into every entry. *)
Definition zeros_like (x : list Q) : list Q := map (Qmult 0) x.

(** [x[i]] for a literal index [i >= 0]. *)
Definition getitem (x : list Q) (i : nat) : exn + Q :=
  match x !! i with
  | Some v => inr v
  | None => inl (IndexError i)
  end.

(** [x[i] = v]; numpy raises out of range, the list is not extended. *)
Definition setitem (x : list Q) (i : nat) (v : Q) : exn + list Q :=
  if decide (i < length x)%nat then inr (<[i:=v]> x) else inl (IndexError i).

(** [x[i] += v]: read, add, write back. *)
Definition iadd (x : list Q) (i : nat) (v : Q) : exn + list Q :=
  match getitem x i with
  | inr old => setitem x i (old + v)
  | inl e => inl e
  end.

(** Entrywise numeric equality of two vectors. *)
Definition vec_eq (u v : list Q) : Prop := Forall2 Qeq u v.

(** [c > 0] as the notebook tests it. *)
Definition Qgtb (a b : Q) : bool := negb (Qle_bool a b).

(** ** The kinetic constraint mapper

    The notebook writes the expression
    [- V_max * c / (K_m + c) if c > 0 else 0.0] inline, three times
    (glucose and oxygen in [sc_dfba], ethanol in [ec_dfba]).  In Python
    the unary minus binds tighter than [*] and [/], which associate to
    the left: the numerator is [(- V_max) * c]. *)
Definition kinetic_bound (V_max K_m c : Q) : Q :=
  if Qgtb c 0 then (- V_max * c) / (K_m + c) else 0.


(** ** Global parameters of the notebook *)

(** The module-level names the functions read at call time. *)
Record Params : Type := {
  V_max_glc : Q;
  K_m_glc : Q;
  V_max_o2 : Q;
  K_m_o2 : Q;
  kLa_o2 : Q;
  V_max_nh4 : Q;
  V_max_eth : Q;
  K_m_eth : Q
}.

(** The values assigned in the notebook. *)
Definition notebook_params : Params := {|
  V_max_glc := 10;
  K_m_glc := 0.01;
  V_max_o2 := 20;
  K_m_o2 := 0.1;
  kLa_o2 := 10;
  V_max_nh4 := 5;
  V_max_eth := 10;
  K_m_eth := 0.1
|}.

(** ** The cobra model object *)

(** Modelled from the spec: cobra's [Model] is not part of the notebook.
    Per the spec's external interface a model carries, per exchange
    reaction, a lower bound (upper bounds are held fixed), and bound
    changes made inside a [with model:] scope are reverted when the scope
    ends.  The scope is modelled the way cobra implements it: a stack of
    open scopes, each with the list of (reaction, previous bound) pairs
    recorded by the assignments made in it, most recent first. *)
Record Model : Type := {
  lower_bounds : gmap string Q;
  contexts : list (list (string * Q))
}.

(** Modelled from the spec: entering [with model:] opens an empty scope. *)
Definition model_enter (m : Model) : Model :=
  {| lower_bounds := lower_bounds m; contexts := [] :: contexts m |}.

(** Modelled from the spec: replaying a history, most recent entry first,
    writes the recorded previous bounds back. *)
Definition reset (h : list (string * Q)) (b : gmap string Q) : gmap string Q :=
  fold_left (fun acc e => <[fst e := snd e]> acc) h b.

(** Modelled from the spec: leaving [with model:] closes the innermost
    scope and reverts what was recorded in it. *)
Definition model_exit (m : Model) : Model :=
  match contexts m with
  | [] => m
  | h :: cs => {| lower_bounds := reset h (lower_bounds m); contexts := cs |}
  end.

(** Modelled from the spec: [model.exchanges.<id>.lower_bound = v].
    An unknown reaction raises; inside a scope an assignment of a value
    numerically equal to the present one records nothing and changes
    nothing, any other one records the previous value. *)
Definition set_lower_bound (id : string) (v : Q) : Eff Model unit :=
  fun m =>
    match lower_bounds m !! id with
    | None => (inl (AttributeError id), m)
    | Some old =>
        match contexts m with
        | [] => (inr tt, {| lower_bounds := <[id:=v]> (lower_bounds m);
                            contexts := [] |})
        | h :: cs =>
            if Qeq_bool old v then (inr tt, m)
            else (inr tt, {| lower_bounds := <[id:=v]> (lower_bounds m);
                             contexts := ((id, old) :: h) :: cs |})
        end
    end.

(** [with model: body]: the scope is left on every exit of the body,
    normal or by exception, and the exception is passed on. *)
Definition with_model {A} (body : Eff Model A) : Eff Model A :=
  fun m => let (r, m') := body (model_enter m) in (r, model_exit m').

(** What [optimize()] hands back: the status string and the flux table. *)
Record Solution : Type := {
  status : string;
  fluxes : string -> Q
}.

(** The two model objects of the notebook. *)
Inductive organism : Type := Yeast | Ecoli.

Record World : Type := {
  sc_model : Model;
  ec_model : Model
}.

Definition get_model (o : organism) (w : World) : Model :=
  match o with Yeast => sc_model w | Ecoli => ec_model w end.

Definition put_model (o : organism) (m : Model) (w : World) : World :=
  match o with
  | Yeast => {| sc_model := m; ec_model := ec_model w |}
  | Ecoli => {| sc_model := sc_model w; ec_model := m |}
  end.

(** Run a computation on one of the two global model objects. *)
Definition on_model {A} (o : organism) (c : Eff Model A) : Eff World A :=
  fun w => let (r, m) := c (get_model o w) in (r, put_model o m w).

(** ** The bound assignments of the two single-organism steps *)

(** Lines 228-230: the three assignments at the head of the [with] block
    of [sc_dfba]; the ammonium bound is a constant. *)
Definition sc_set_bounds (p : Params) (x : list Q) : Eff Model unit :=
  let! x2 := lift (getitem x 2) in
  do! set_lower_bound "EX_glc__D_e"
        (kinetic_bound (V_max_glc p) (K_m_glc p) x2) in
  let! x3 := lift (getitem x 3) in
  do! set_lower_bound "EX_o2_e"
        (kinetic_bound (V_max_o2 p) (K_m_o2 p) x3) in
  set_lower_bound "EX_nh4_e" (- V_max_nh4 p).

(** Lines 390-393: the four assignments at the head of the [with] block
    of [ec_dfba]; only the ethanol bound is a kinetic expression. *)
Definition ec_set_bounds (p : Params) (x : list Q) : Eff Model unit :=
  do! set_lower_bound "EX_glc__D_e" 0 in
  do! set_lower_bound "EX_o2_e" 0 in
  do! set_lower_bound "EX_nh4_e" 0 in
  let! x4 := lift (getitem x 4) in
  set_lower_bound "EX_etoh_e" (kinetic_bound (V_max_eth p) (K_m_eth p) x4).

(** The lower bounds in force when the step calls the solver: those of
    the model after entering the scope and running the assignments. *)
Definition sc_bounds_at_solve (p : Params) (x : list Q) (m : Model)
  : gmap string Q :=
  lower_bounds (snd (sc_set_bounds p x (model_enter m))).

Definition ec_bounds_at_solve (p : Params) (x : list Q) (m : Model)
  : gmap string Q :=
  lower_bounds (snd (ec_set_bounds p x (model_enter m))).

(** The lower bound of reaction [id] in table [b] is numerically [v]. *)
Definition bound_is (b : gmap string Q) (id : string) (v : Q) : Prop :=
  exists u, b !! id = Some u /\ u == v.

(** ** The same bounds, as a table transformation *)

(** The effect of one bound assignment inside a scope on the table of
    lower bounds (see [set_lower_bound]). *)
Definition assign (id : string) (v : Q) (b : gmap string Q) : gmap string Q :=
  match b !! id with
  | Some old => if Qeq_bool old v then b else <[id:=v]> b
  | None => b
  end.

(** The three assignments of [sc_set_bounds] on the table. *)
Definition sc_solver_input (p : Params) (x2 x3 : Q) (b : gmap string Q)
  : gmap string Q :=
  assign "EX_nh4_e" (- V_max_nh4 p)
    (assign "EX_o2_e" (kinetic_bound (V_max_o2 p) (K_m_o2 p) x3)
       (assign "EX_glc__D_e" (kinetic_bound (V_max_glc p) (K_m_glc p) x2) b)).

(** The four assignments of [ec_set_bounds] on the table. *)
Definition ec_solver_input (p : Params) (x4 : Q) (b : gmap string Q)
  : gmap string Q :=
  assign "EX_etoh_e" (kinetic_bound (V_max_eth p) (K_m_eth p) x4)
    (assign "EX_nh4_e" 0 (assign "EX_o2_e" 0 (assign "EX_glc__D_e" 0 b))).

(** The reactions a model must have for the assignments not to raise. *)
Definition has_reactions (ids : list string) (m : Model) : Prop :=
  Forall (fun id => is_Some (lower_bounds m !! id)) ids.

Definition sc_exchanges : list string :=
  ["EX_glc__D_e"; "EX_o2_e"; "EX_nh4_e"].

Definition ec_exchanges : list string :=
  ["EX_glc__D_e"; "EX_o2_e"; "EX_nh4_e"; "EX_etoh_e"].

(** ** The three right-hand sides *)

Section DFBA.

(** [model.optimize()] of the model object of each organism, as a
    function of the lower bounds in force at the call. *)
Variable solver : organism -> gmap string Q -> exn + Solution.

Definition optimize (o : organism) : Eff Model Solution :=
  fun m => (solver o (lower_bounds m), m).

(** [sc_dfba(t, x)], notebook lines 222-238. *)
Definition sc_dfba (p : Params) (t : Q) (x : list Q) : Eff World (list Q) :=
  let xdot := zeros_like x in
  let! x3 := lift (getitem x 3) in
  let! xdot := lift (setitem xdot 3 (kLa_o2 p * (10 - x3))) in
  on_model Yeast (with_model (
    do! sc_set_bounds p x in
    let! sc_sol := optimize Yeast in
    if String.eqb (status sc_sol) "optimal" then
      let! x0 := lift (getitem x 0) in
      let! xdot := lift (iadd xdot 0
                           (fluxes sc_sol "BIOMASS_SC5_notrace" * x0)) in
      let! xdot := lift (iadd xdot 2
                           (fluxes sc_sol "EX_glc__D_e" * 0.18 * x0)) in
      let! xdot := lift (iadd xdot 3
                           (fluxes sc_sol "EX_o2_e" * 32 * x0)) in
      let! xdot := lift (iadd xdot 4
                           (fluxes sc_sol "EX_etoh_e" * 0.046 * x0)) in
      ret xdot
    else ret xdot)).

(** [ec_dfba(t, x)], notebook lines 385-399. *)
Definition ec_dfba (p : Params) (t : Q) (x : list Q) : Eff World (list Q) :=
  let xdot := zeros_like x in
  let! x3 := lift (getitem x 3) in
  let! xdot := lift (setitem xdot 3 (kLa_o2 p * (10 - x3))) in
  on_model Ecoli (with_model (
    do! ec_set_bounds p x in
    let! ec_sol := optimize Ecoli in
    if String.eqb (status ec_sol) "optimal" then
      let! x1 := lift (getitem x 1) in
      let! xdot := lift (iadd xdot 4
                           (fluxes ec_sol "EX_etoh_e" * 0.046 * x1)) in
      ret xdot
    else ret xdot)).

(** The [with sc_model:] block of [community_dfba], lines 477-482. *)
Definition community_sc_block (x xdot : list Q) : Eff World (list Q) :=
  on_model Yeast (with_model (
    let! sc_sol := optimize Yeast in
    if String.eqb (status sc_sol) "optimal" then
      let! x0 := lift (getitem x 0) in
      lift (iadd xdot 0 (fluxes sc_sol "BIOMASS_SC5_notrace" * x0))
    else ret xdot)).

(** The [with ec_model:] block of [community_dfba], lines 483-488. *)
Definition community_ec_block (x xdot : list Q) : Eff World (list Q) :=
  on_model Ecoli (with_model (
    let! ec_sol := optimize Ecoli in
    if String.eqb (status ec_sol) "optimal" then
      let! x1 := lift (getitem x 1) in
      lift (iadd xdot 1
              (fluxes ec_sol "BIOMASS_Ec_iJO1366_core_53p95M" * x1))
    else ret xdot)).

(** [community_dfba(t, x)], notebook lines 474-489. *)
Definition community_dfba (p : Params) (t : Q) (x : list Q)
  : Eff World (list Q) :=
  let xdot := zeros_like x in
  let! x3 := lift (getitem x 3) in
  let! xdot := lift (setitem xdot 3 (kLa_o2 p * (10 - x3))) in
  let! xdot := community_sc_block x xdot in
  let! xdot := community_ec_block x xdot in
  ret xdot.

(** [community_dfba] with its two [with] blocks in the other order
    (E. coli first); not in the notebook, used to compare the orders. *)
Definition community_dfba_swapped (p : Params) (t : Q) (x : list Q)
  : Eff World (list Q) :=
  let xdot := zeros_like x in
  let! x3 := lift (getitem x 3) in
  let! xdot := lift (setitem xdot 3 (kLa_o2 p * (10 - x3))) in
  let! xdot := community_ec_block x xdot in
  let! xdot := community_sc_block x xdot in
  ret xdot.

(** The exploratory FBA of the E. coli model without glucose, notebook
    lines 331-335: both carbon sources are closed inside a scope, the
    model is optimized and the solution is kept in [fba_sol]. *)
Definition ec_fba_no_glucose : Eff World Solution :=
  on_model Ecoli (with_model (
    do! set_lower_bound "EX_glc__D_e" 0 in
    do! set_lower_bound "EX_etoh_e" 0 in
    optimize Ecoli)).

(** The single-organism step of each organism. *)
Definition organism_step (o : organism) : Params -> Q -> list Q -> Eff World (list Q) :=
  match o with Yeast => sc_dfba | Ecoli => ec_dfba end.

End DFBA.

(** The exchange reactions each single-organism step assigns to. *)
Definition exchanges (o : organism) : list string :=
  match o with Yeast => sc_exchanges | Ecoli => ec_exchanges end.

(** The bounds in force at the solver call of each single-organism step. *)
Definition bounds_at_solve (o : organism) (p : Params) (x : list Q)
    (m : Model) : gmap string Q :=
  match o with
  | Yeast => sc_bounds_at_solve p x m
  | Ecoli => ec_bounds_at_solve p x m
  end.

(** A result with the exception forgotten. *)
Definition to_option {A} (r : exn + A) : option A :=
  match r with
  | inr v => Some v
  | inl _ => None
  end.

(** The vector a run returned, if it returned one. *)
Definition returned {S} (r : (exn + list Q) * S) : option (list Q) :=
  to_option (fst r).

(** ** The scope discipline of [with model:] *)

(** [m] is [m0] with one more scope open whose history undoes every change
    made to the bounds since it was opened. *)
Definition scoped (m0 m : Model) : Prop :=
  exists h, contexts m = h :: contexts m0 /\
            reset h (lower_bounds m) = lower_bounds m0.

(** A computation that keeps the innermost scope faithful. *)
Definition keeps_scope {A} (c : Eff Model A) : Prop :=
  forall m0 m, scoped m0 m -> scoped m0 (snd (c m)).

(** The model after an assignment. *)
Definition set_state (id : string) (v : Q) (m : Model) : Model :=
  snd (set_lower_bound id v m).

(** What one [with] block of [community_dfba] adds to [xdot], given
    the outcome [r] of its solver call: the growth flux times the
    organism's biomass [x[i]], into slot [i]. *)
Definition block_result (i : nat) (biomass : string) (x xdot : list Q)
    (r : exn + Solution) : exn + list Q :=
  match r with
  | inl e => inl e
  | inr sol =>
      if String.eqb (status sol) "optimal" then
        match getitem x i with
        | inr xi => iadd xdot i (fluxes sol biomass * xi)
        | inl e => inl e
        end
      else inr xdot
  end.

(** ** A toy solver, for concrete runs *)

(** Nominal lower bounds of the four exchange reactions. *)
Definition toy_bounds : gmap string Q :=
  list_to_map [("EX_glc__D_e", - (10)); ("EX_o2_e", - (2));
               ("EX_nh4_e", - (1000)); ("EX_etoh_e", 0)].

(** The same with ethanol uptake allowed, for the E. coli model. *)
Definition toy_ec_bounds : gmap string Q := <["EX_etoh_e" := - (3)]> toy_bounds.

Definition toy_world : World :=
  {| sc_model := {| lower_bounds := toy_bounds; contexts := [] |};
     ec_model := {| lower_bounds := toy_ec_bounds; contexts := [] |} |}.

(** The carbon source each organism lives on in the notebook. *)
Definition carbon_source (o : organism) : string :=
  match o with Yeast => "EX_glc__D_e" | Ecoli => "EX_etoh_e" end.

(** Takes up every exchanged metabolite at its lower bound and grows at a
    tenth of the carbon uptake; infeasible when no carbon can be taken up. *)
Definition toy_solution (o : organism) (b : gmap string Q) : Solution :=
  let carbon := default 0 (b !! carbon_source o) in
  {| status := if Qgtb 0 carbon then "optimal" else "infeasible";
     fluxes := fun id => default (- carbon / 10) (b !! id) |}.

Definition toy_solver (o : organism) (b : gmap string Q) : exn + Solution :=
  inr (toy_solution o b).

(** A solver that is always optimal and takes up every exchanged
    metabolite exactly at its lower bound, without growth: a linear
    program with no maintenance demand. *)
Definition bound_solver (o : organism) (b : gmap string Q) : exn + Solution :=
  inr {| status := "optimal"; fluxes := fun id => default 0 (b !! id) |}.

(** A solver that always fails. *)
Definition failing_solver (o : organism) (b : gmap string Q) : exn + Solution :=
  inl (SolverError "solver crashed").

(** ** Notions used to state further properties *)

(** The slot of the state vector that holds the organism's biomass:
    [x[0]] in [sc_dfba], [x[1]] in [ec_dfba]. *)
Definition biomass_slot (o : organism) : nat :=
  match o with Yeast => 0%nat | Ecoli => 1%nat end.

(** A solver of a linear program returns, when optimal, fluxes that are
    not below the lower bounds it was given. *)
Definition respects_bounds
    (solver : organism -> gmap string Q -> exn + Solution) (o : organism) : Prop :=
  forall b sol id v,
    solver o b = inr sol -> status sol = "optimal" ->
    b !! id = Some v -> v <= fluxes sol id.

(** Two outcomes agree: the same exception, or numerically equal vectors. *)
Definition outcome_eq (r r' : exn + list Q) : Prop :=
  match r, r' with
  | inr v, inr v' => vec_eq v v'
  | inl e, inl e' => e = e'
  | _, _ => False
  end.

(** Every value the computation can return satisfies [P]. *)
Definition ensures {S A} (P : A -> Prop) (c : Eff S A) : Prop :=
  forall s a s', c s = (inr a, s') -> P a.

(** The computation leaves the lower bound of reaction [k] as it is. *)
Definition keeps_bound {A} (k : string) (c : Eff Model A) : Prop :=
  forall m, lower_bounds (snd (c m)) !! k = lower_bounds m !! k.

(** ** Lemmas on the scope discipline *)

Lemma scoped_enter (m : Model) : scoped m (model_enter m).
Proof. exists []. split; reflexivity. Qed.

Lemma scoped_exit (m0 m : Model) : scoped m0 m -> model_exit m = m0.
Proof.
  intros (h & Hc & Hb). unfold model_exit. rewrite Hc, Hb.
  destruct m0; reflexivity.
Qed.

Lemma scoped_set (id : string) (v : Q) (m0 m : Model) :
  scoped m0 m -> scoped m0 (set_state id v m).
Proof.
  intros (h & Hc & Hb). unfold set_state, set_lower_bound.
  destruct (lower_bounds m !! id) as [old|] eqn:Hid; simpl.
  - rewrite Hc. destruct (Qeq_bool old v); simpl.
    + exists h. split; assumption.
    + exists ((id, old) :: h). split; [reflexivity|].
      simpl. rewrite insert_insert_eq, insert_id by assumption. assumption.
  - exists h. split; assumption.
Qed.

Lemma keeps_scope_set (id : string) (v : Q) : keeps_scope (set_lower_bound id v).
Proof. intros m0 m H. apply (scoped_set id v), H. Qed.

Lemma keeps_scope_ret {A} (a : A) : keeps_scope (ret a).
Proof. intros m0 m H. exact H. Qed.

Lemma keeps_scope_lift {A} (r : exn + A) : keeps_scope (lift r).
Proof. intros m0 m H. exact H. Qed.

Lemma keeps_scope_bind {A B} (c : Eff Model A) (k : A -> Eff Model B) :
  keeps_scope c -> (forall a, keeps_scope (k a)) -> keeps_scope (bind c k).
Proof.
  intros Hc Hk m0 m H. unfold bind. specialize (Hc m0 m H).
  destruct (c m) as [[e|a] m']; simpl in *.
  - exact Hc.
  - apply Hk, Hc.
Qed.

Lemma keeps_scope_if {A} (b : bool) (c1 c2 : Eff Model A) :
  keeps_scope c1 -> keeps_scope c2 -> keeps_scope (if b then c1 else c2).
Proof. destruct b; auto. Qed.

Lemma with_model_restores {A} (body : Eff Model A) (m : Model) :
  keeps_scope body -> snd (with_model body m) = m.
Proof.
  intros Hb. unfold with_model.
  specialize (Hb m (model_enter m) (scoped_enter m)).
  destruct (body (model_enter m)) as [r m']; simpl in *.
  apply scoped_exit, Hb.
Qed.

Lemma put_get_model (o : organism) (w : World) : put_model o (get_model o w) w = w.
Proof. destruct o, w; reflexivity. Qed.

Lemma on_model_restores {A} (o : organism) (c : Eff Model A) (w : World) :
  snd (c (get_model o w)) = get_model o w -> snd (on_model o c w) = w.
Proof.
  intros H. unfold on_model. destruct (c (get_model o w)) as [r m]; simpl in *.
  subst m. apply put_get_model.
Qed.

Create HintDb scope discriminated.
#[export] Hint Resolve keeps_scope_set keeps_scope_ret keeps_scope_lift
  keeps_scope_if : scope.

Ltac keep_scope :=
  repeat first
    [ apply keeps_scope_bind; [| intros ?]
    | apply keeps_scope_if
    | solve [auto with scope] ].

(** ** Vector and monad steps *)

Lemma setitem_ok (x : list Q) (i : nat) (v : Q) :
  (i < length x)%nat -> setitem x i v = inr (<[i:=v]> x).
Proof. intros H. unfold setitem. destruct (decide (i < length x)%nat); [reflexivity|lia]. Qed.

Lemma iadd_ok (x : list Q) (i : nat) (v old : Q) :
  x !! i = Some old -> iadd x i v = inr (<[i:=old + v]> x).
Proof.
  intros H. unfold iadd, getitem. rewrite H.
  apply setitem_ok. eapply lookup_lt_Some, H.
Qed.

Lemma bind_lift_inr {S A B} (a : A) (k : A -> Eff S B) (s : S) :
  bind (lift (inr a)) k s = k a s.
Proof. reflexivity. Qed.

Lemma bind_lift {S A B} (r : exn + A) (k : A -> Eff S B) (s : S) :
  bind (lift r) k s = match r with inr a => k a s | inl e => (inl e, s) end.
Proof. destruct r; reflexivity. Qed.

Lemma iadd_None (x : list Q) (i : nat) (v : Q) :
  x !! i = None -> iadd x i v = inl (IndexError i).
Proof. intros H. unfold iadd, getitem. rewrite H. reflexivity. Qed.

(** Two in-place additions into different slots can be done in either
    order: both orders fail or both give the same vector. *)
Lemma iadd_commute (xd : list Q) (i j : nat) (a b : Q) :
  i <> j ->
  to_option (match iadd xd i a with inr v => iadd v j b | inl e => inl e end) =
  to_option (match iadd xd j b with inr v => iadd v i a | inl e => inl e end).
Proof.
  intros Hne.
  destruct (xd !! i) as [di|] eqn:Hi; destruct (xd !! j) as [dj|] eqn:Hj.
  - rewrite (iadd_ok xd i a di Hi), (iadd_ok xd j b dj Hj).
    rewrite (iadd_ok _ j b dj), (iadd_ok _ i a di)
      by (rewrite list_lookup_insert_ne by congruence; assumption).
    simpl. f_equal. symmetry. apply list_insert_insert_ne, Hne.
  - rewrite (iadd_ok xd i a di Hi), (iadd_None xd j b Hj).
    rewrite iadd_None by (rewrite list_lookup_insert_ne by congruence; assumption).
    reflexivity.
  - rewrite (iadd_None xd i a Hi), (iadd_ok xd j b dj Hj).
    rewrite iadd_None by (rewrite list_lookup_insert_ne by congruence; assumption).
    reflexivity.
  - rewrite (iadd_None xd i a Hi), (iadd_None xd j b Hj). reflexivity.
Qed.

(** ** Assignments inside a scope *)

Lemma set_lower_bound_ok (id : string) (v : Q) (m : Model) :
  is_Some (lower_bounds m !! id) ->
  set_lower_bound id v m = (inr tt, set_state id v m).
Proof.
  intros [old Hid]. unfold set_state, set_lower_bound. rewrite Hid.
  destruct (contexts m); [reflexivity|]. destruct (Qeq_bool old v); reflexivity.
Qed.

Lemma bind_set {A} (id : string) (v : Q) (k : unit -> Eff Model A) (m : Model) :
  is_Some (lower_bounds m !! id) ->
  bind (set_lower_bound id v) k m = k tt (set_state id v m).
Proof. intros H. unfold bind. rewrite set_lower_bound_ok by exact H. reflexivity. Qed.

Lemma assign_is_Some (id k : string) (v : Q) (b : gmap string Q) :
  is_Some (b !! k) -> is_Some (assign id v b !! k).
Proof.
  intros H. unfold assign. destruct (b !! id) as [old|] eqn:Hid; [|exact H].
  destruct (Qeq_bool old v); [exact H|].
  destruct (decide (id = k)) as [->|Hne].
  - rewrite lookup_insert_eq. eexists; reflexivity.
  - rewrite lookup_insert_ne by exact Hne. exact H.
Qed.

Lemma assign_lookup_eq (id : string) (v : Q) (b : gmap string Q) :
  is_Some (b !! id) -> exists u, assign id v b !! id = Some u /\ u == v.
Proof.
  intros [old Hid]. unfold assign. rewrite Hid.
  destruct (Qeq_bool old v) eqn:E.
  - exists old. split; [exact Hid|]. apply Qeq_bool_iff, E.
  - exists v. split; [apply lookup_insert_eq|reflexivity].
Qed.

Lemma assign_lookup_ne (id k : string) (v : Q) (b : gmap string Q) :
  id <> k -> assign id v b !! k = b !! k.
Proof.
  intros Hne. unfold assign. destruct (b !! id) as [old|]; [|reflexivity].
  destruct (Qeq_bool old v); [reflexivity|]. apply lookup_insert_ne, Hne.
Qed.

Lemma set_state_bounds (id : string) (v : Q) (m : Model) :
  contexts m <> [] -> lower_bounds (set_state id v m) = assign id v (lower_bounds m).
Proof.
  intros Hc. unfold set_state, set_lower_bound, assign.
  destruct (lower_bounds m !! id) as [old|]; [|reflexivity].
  destruct (contexts m); [congruence|].
  destruct (Qeq_bool old v); reflexivity.
Qed.

Lemma set_state_contexts (id : string) (v : Q) (m : Model) :
  contexts m <> [] -> contexts (set_state id v m) <> [].
Proof.
  intros Hc. unfold set_state, set_lower_bound.
  destruct (lower_bounds m !! id) as [old|]; [|exact Hc].
  destruct (contexts m) as [|h cs] eqn:E; [congruence|].
  destruct (Qeq_bool old v); simpl; congruence.
Qed.

Lemma set_state_present (id k : string) (v : Q) (m : Model) :
  is_Some (lower_bounds m !! k) -> is_Some (lower_bounds (set_state id v m) !! k).
Proof.
  intros H. unfold set_state, set_lower_bound.
  destruct (lower_bounds m !! id) as [old|] eqn:Hid; [|exact H].
  assert (Hins : is_Some (<[id:=v]> (lower_bounds m) !! k)).
  { destruct (decide (id = k)) as [->|Hne].
    - rewrite lookup_insert_eq. eexists; reflexivity.
    - rewrite lookup_insert_ne by exact Hne. exact H. }
  destruct (contexts m); [exact Hins|].
  destruct (Qeq_bool old v); [exact H|exact Hins].
Qed.

Lemma model_enter_contexts (m : Model) : contexts (model_enter m) <> [].
Proof. discriminate. Qed.

Lemma has_reactions_lookup (ids : list string) (m : Model) (id : string) :
  has_reactions ids m -> In id ids -> is_Some (lower_bounds m !! id).
Proof.
  unfold has_reactions. rewrite Forall_forall. intros H Hin.
  apply H, list_elem_of_In, Hin.
Qed.


#[export] Hint Resolve set_state_present set_state_contexts model_enter_contexts
  scoped_set scoped_enter : scope.

Lemma has_reactions_enter (ids : list string) (m : Model) :
  has_reactions ids m -> has_reactions ids (model_enter m).
Proof. intros H. exact H. Qed.

(** The assignments of [sc_dfba] do not raise on a model that has the
    three reactions and a five-entry state vector. *)
Lemma sc_set_bounds_run (p : Params) (x0 x1 x2 x3 x4 : Q) (m : Model) :
  has_reactions sc_exchanges m ->
  sc_set_bounds p [x0; x1; x2; x3; x4] m =
  (inr tt,
   set_state "EX_nh4_e" (- V_max_nh4 p)
     (set_state "EX_o2_e" (kinetic_bound (V_max_o2 p) (K_m_o2 p) x3)
        (set_state "EX_glc__D_e" (kinetic_bound (V_max_glc p) (K_m_glc p) x2) m))).
Proof.
  intros Hr.
  assert (Hglc := has_reactions_lookup _ _ "EX_glc__D_e" Hr ltac:(simpl; tauto)).
  assert (Ho2 := has_reactions_lookup _ _ "EX_o2_e" Hr ltac:(simpl; tauto)).
  assert (Hnh4 := has_reactions_lookup _ _ "EX_nh4_e" Hr ltac:(simpl; tauto)).
  unfold sc_set_bounds. cbn [getitem lookup list_lookup].
  rewrite bind_lift_inr, bind_set by auto with scope.
  rewrite bind_lift_inr, bind_set by auto with scope.
  apply set_lower_bound_ok. auto with scope.
Qed.

(** The assignments of [ec_dfba] do not raise on a model that has the
    four reactions and a five-entry state vector. *)
Lemma ec_set_bounds_run (p : Params) (x0 x1 x2 x3 x4 : Q) (m : Model) :
  has_reactions ec_exchanges m ->
  ec_set_bounds p [x0; x1; x2; x3; x4] m =
  (inr tt,
   set_state "EX_etoh_e" (kinetic_bound (V_max_eth p) (K_m_eth p) x4)
     (set_state "EX_nh4_e" 0
        (set_state "EX_o2_e" 0 (set_state "EX_glc__D_e" 0 m)))).
Proof.
  intros Hr.
  assert (Hglc := has_reactions_lookup _ _ "EX_glc__D_e" Hr ltac:(simpl; tauto)).
  assert (Ho2 := has_reactions_lookup _ _ "EX_o2_e" Hr ltac:(simpl; tauto)).
  assert (Hnh4 := has_reactions_lookup _ _ "EX_nh4_e" Hr ltac:(simpl; tauto)).
  assert (Het := has_reactions_lookup _ _ "EX_etoh_e" Hr ltac:(simpl; tauto)).
  unfold ec_set_bounds. cbn [getitem lookup list_lookup].
  do 3 rewrite bind_set by auto with scope.
  rewrite bind_lift_inr.
  apply set_lower_bound_ok. auto with scope.
Qed.

(** The bounds in force at the solver call, as a table transformation. *)
Lemma sc_bounds_at_solve_eq (p : Params) (x0 x1 x2 x3 x4 : Q) (m : Model) :
  has_reactions sc_exchanges m ->
  sc_bounds_at_solve p [x0; x1; x2; x3; x4] m
  = sc_solver_input p x2 x3 (lower_bounds m).
Proof.
  intros Hr. unfold sc_bounds_at_solve, sc_solver_input.
  rewrite sc_set_bounds_run by (apply has_reactions_enter, Hr).
  cbn [snd]. repeat rewrite set_state_bounds by auto with scope. reflexivity.
Qed.

Lemma ec_bounds_at_solve_eq (p : Params) (x0 x1 x2 x3 x4 : Q) (m : Model) :
  has_reactions ec_exchanges m ->
  ec_bounds_at_solve p [x0; x1; x2; x3; x4] m
  = ec_solver_input p x4 (lower_bounds m).
Proof.
  intros Hr. unfold ec_bounds_at_solve, ec_solver_input.
  rewrite ec_set_bounds_run by (apply has_reactions_enter, Hr).
  cbn [snd]. repeat rewrite set_state_bounds by auto with scope. reflexivity.
Qed.

Lemma keeps_scope_sc_set_bounds (p : Params) (x : list Q) :
  keeps_scope (sc_set_bounds p x).
Proof. unfold sc_set_bounds. keep_scope. Qed.

Lemma keeps_scope_ec_set_bounds (p : Params) (x : list Q) :
  keeps_scope (ec_set_bounds p x).
Proof. unfold ec_set_bounds. keep_scope. Qed.

#[export] Hint Resolve keeps_scope_sc_set_bounds keeps_scope_ec_set_bounds : scope.

(** ** Properties of the right-hand sides *)

Section Properties.

Variable solver : organism -> gmap string Q -> exn + Solution.

Lemma keeps_scope_optimize (o : organism) : keeps_scope (optimize solver o).
Proof. intros m0 m H. exact H. Qed.

#[local] Hint Resolve keeps_scope_optimize : scope.

(** The value [sc_dfba] computes from the five entries of the state
    vector and the outcome of the solver. *)
Lemma sc_dfba_run (p : Params) (t x0 x1 x2 x3 x4 : Q) (w : World) :
  has_reactions sc_exchanges (sc_model w) ->
  sc_dfba solver p t [x0; x1; x2; x3; x4] w =
  (match solver Yeast (sc_bounds_at_solve p [x0; x1; x2; x3; x4] (sc_model w)) with
   | inl e => inl e
   | inr sol =>
       if String.eqb (status sol) "optimal" then
         inr [0 * x0 + fluxes sol "BIOMASS_SC5_notrace" * x0;
              0 * x1;
              0 * x2 + fluxes sol "EX_glc__D_e" * 0.18 * x0;
              kLa_o2 p * (10 - x3) + fluxes sol "EX_o2_e" * 32 * x0;
              0 * x4 + fluxes sol "EX_etoh_e" * 0.046 * x0]
       else inr [0 * x0; 0 * x1; 0 * x2; kLa_o2 p * (10 - x3); 0 * x4]
   end, w).
Proof.
  intros Hr. apply has_reactions_enter in Hr.
  unfold sc_dfba. cbn [zeros_like map getitem lookup list_lookup].
  rewrite bind_lift_inr, setitem_ok by (simpl; lia).
  rewrite bind_lift_inr.
  unfold on_model, with_model, sc_bounds_at_solve. cbn [get_model].
  unfold bind at 1. rewrite sc_set_bounds_run by exact Hr.
  match goal with |- context [bind _ _ ?m] => set (S := m) end.
  assert (He : model_exit S = sc_model w).
  { apply scoped_exit. unfold S. auto with scope. }
  unfold bind at 1, optimize. cbn [snd]. fold S.
  destruct (solver Yeast _) as [e|sol]; rewrite ?He.
  - destruct w; reflexivity.
  - destruct (status sol =? "optimal").
    + rewrite bind_lift_inr.
      repeat (erewrite iadd_ok by reflexivity; rewrite bind_lift_inr).
      unfold ret. rewrite He. destruct w; reflexivity.
    + unfold ret. rewrite He. destruct w; reflexivity.
Qed.

(** The value [ec_dfba] computes from the five entries of the state
    vector and the outcome of the solver. *)
Lemma ec_dfba_run (p : Params) (t x0 x1 x2 x3 x4 : Q) (w : World) :
  has_reactions ec_exchanges (ec_model w) ->
  ec_dfba solver p t [x0; x1; x2; x3; x4] w =
  (match solver Ecoli (ec_bounds_at_solve p [x0; x1; x2; x3; x4] (ec_model w)) with
   | inl e => inl e
   | inr sol =>
       if String.eqb (status sol) "optimal" then
         inr [0 * x0; 0 * x1; 0 * x2; kLa_o2 p * (10 - x3);
              0 * x4 + fluxes sol "EX_etoh_e" * 0.046 * x1]
       else inr [0 * x0; 0 * x1; 0 * x2; kLa_o2 p * (10 - x3); 0 * x4]
   end, w).
Proof.
  intros Hr. apply has_reactions_enter in Hr.
  unfold ec_dfba. cbn [zeros_like map getitem lookup list_lookup].
  rewrite bind_lift_inr, setitem_ok by (simpl; lia).
  rewrite bind_lift_inr.
  unfold on_model, with_model, ec_bounds_at_solve. cbn [get_model].
  unfold bind at 1. rewrite ec_set_bounds_run by exact Hr.
  match goal with |- context [bind _ _ ?m] => set (S := m) end.
  assert (He : model_exit S = ec_model w).
  { apply scoped_exit. unfold S. auto with scope. }
  unfold bind at 1, optimize. cbn [snd]. fold S.
  destruct (solver Ecoli _) as [e|sol]; rewrite ?He.
  - destruct w; reflexivity.
  - destruct (status sol =? "optimal").
    + rewrite bind_lift_inr.
      erewrite iadd_ok by reflexivity. rewrite bind_lift_inr.
      unfold ret. rewrite He. destruct w; reflexivity.
    + unfold ret. rewrite He. destruct w; reflexivity.
Qed.

Lemma community_sc_block_run (x xdot : list Q) (w : World) :
  community_sc_block solver x xdot w =
  (block_result 0 "BIOMASS_SC5_notrace" x xdot
     (solver Yeast (lower_bounds (sc_model w))), w).
Proof.
  unfold community_sc_block, on_model, with_model, bind, optimize, block_result.
  cbn [get_model model_enter lower_bounds].
  destruct (solver Yeast _) as [e|sol].
  - destruct w as [[b c] m2]; reflexivity.
  - destruct (status sol =? "optimal").
    + unfold lift. destruct (getitem x 0); destruct w as [[b c] m2]; reflexivity.
    + destruct w as [[b c] m2]; reflexivity.
Qed.

Lemma community_ec_block_run (x xdot : list Q) (w : World) :
  community_ec_block solver x xdot w =
  (block_result 1 "BIOMASS_Ec_iJO1366_core_53p95M" x xdot
     (solver Ecoli (lower_bounds (ec_model w))), w).
Proof.
  unfold community_ec_block, on_model, with_model, bind, optimize, block_result.
  cbn [get_model model_enter lower_bounds].
  destruct (solver Ecoli _) as [e|sol].
  - destruct w as [m1 [b c]]; reflexivity.
  - destruct (status sol =? "optimal").
    + unfold lift. destruct (getitem x 1); destruct w as [m1 [b c]]; reflexivity.
    + destruct w as [m1 [b c]]; reflexivity.
Qed.

Lemma bind_sc_block {B} (x xdot : list Q) (k : list Q -> Eff World B) (w : World) :
  bind (community_sc_block solver x xdot) k w =
  match block_result 0 "BIOMASS_SC5_notrace" x xdot
          (solver Yeast (lower_bounds (sc_model w))) with
  | inr v => k v w
  | inl e => (inl e, w)
  end.
Proof. unfold bind. rewrite community_sc_block_run. reflexivity. Qed.

Lemma bind_ec_block {B} (x xdot : list Q) (k : list Q -> Eff World B) (w : World) :
  bind (community_ec_block solver x xdot) k w =
  match block_result 1 "BIOMASS_Ec_iJO1366_core_53p95M" x xdot
          (solver Ecoli (lower_bounds (ec_model w))) with
  | inr v => k v w
  | inl e => (inl e, w)
  end.
Proof. unfold bind. rewrite community_ec_block_run. reflexivity. Qed.

(** The value [community_dfba] computes from the five entries of the
    state vector when both solver calls hand back a solution. *)
Lemma community_dfba_run (p : Params) (t x0 x1 x2 x3 x4 : Q) (w : World)
    (s1 s2 : Solution) :
  solver Yeast (lower_bounds (sc_model w)) = inr s1 ->
  solver Ecoli (lower_bounds (ec_model w)) = inr s2 ->
  community_dfba solver p t [x0; x1; x2; x3; x4] w =
  (inr [if String.eqb (status s1) "optimal"
        then 0 * x0 + fluxes s1 "BIOMASS_SC5_notrace" * x0 else 0 * x0;
        if String.eqb (status s2) "optimal"
        then 0 * x1 + fluxes s2 "BIOMASS_Ec_iJO1366_core_53p95M" * x1
        else 0 * x1;
        0 * x2; kLa_o2 p * (10 - x3); 0 * x4], w).
Proof.
  intros H1 H2.
  unfold community_dfba. cbn [zeros_like map getitem lookup list_lookup].
  rewrite bind_lift_inr, setitem_ok by (simpl; lia).
  rewrite bind_lift_inr, bind_sc_block, H1. unfold block_result.
  destruct (status s1 =? "optimal");
    cbn [getitem lookup list_lookup]; [erewrite iadd_ok by reflexivity|];
    rewrite bind_ec_block, H2; unfold block_result;
    destruct (status s2 =? "optimal");
    cbn [getitem lookup list_lookup]; [erewrite iadd_ok by reflexivity| |
                                       erewrite iadd_ok by reflexivity|];
    reflexivity.
Qed.

(** C1: on an optimal solution [sc_dfba] returns the growth flux times
    the yeast biomass [x[0]] in slot 0, and in the glucose, oxygen and
    ethanol slots the exchange flux times [x[0]] times the molar mass
    0.18, 32 and 0.046; the oxygen slot also holds the transfer term
    [kLa_o2 * (10.0 - x[3])].  Slot 1 stays zero and the models are
    left as they were. *)
Theorem sc_dfba_optimal (p : Params) (t x0 x1 x2 x3 x4 : Q) (w : World)
    (sol : Solution) :
  has_reactions sc_exchanges (sc_model w) ->
  solver Yeast (sc_bounds_at_solve p [x0; x1; x2; x3; x4] (sc_model w)) = inr sol ->
  status sol = "optimal" ->
  exists xdot,
    sc_dfba solver p t [x0; x1; x2; x3; x4] w = (inr xdot, w) /\
    vec_eq xdot
      [fluxes sol "BIOMASS_SC5_notrace" * x0;
       0;
       fluxes sol "EX_glc__D_e" * x0 * 0.18;
       fluxes sol "EX_o2_e" * x0 * 32 + kLa_o2 p * (10 - x3);
       fluxes sol "EX_etoh_e" * x0 * 0.046].
Proof.
  intros Hr Hs Hopt. rewrite sc_dfba_run, Hs, Hopt by exact Hr.
  eexists. split; [reflexivity|].
  unfold vec_eq. repeat constructor; ring.
Qed.

(** C4: when the solver hands back a solution whose status is not
    ["optimal"], the single-organism step ([sc_dfba] for yeast,
    [ec_dfba] for E. coli) does not raise and returns the vector that
    is zero everywhere except for the oxygen transfer term in slot 3. *)
Theorem dfba_step_not_optimal (o : organism) (p : Params)
    (t x0 x1 x2 x3 x4 : Q) (w : World) (sol : Solution) :
  has_reactions (exchanges o) (get_model o w) ->
  solver o (bounds_at_solve o p [x0; x1; x2; x3; x4] (get_model o w)) = inr sol ->
  status sol <> "optimal" ->
  exists xdot,
    organism_step solver o p t [x0; x1; x2; x3; x4] w = (inr xdot, w) /\
    vec_eq xdot [0; 0; 0; kLa_o2 p * (10 - x3); 0].
Proof.
  intros Hr Hs Hopt. apply String.eqb_neq in Hopt.
  destruct o; cbn [organism_step exchanges bounds_at_solve get_model] in *.
  - rewrite sc_dfba_run, Hs, Hopt by exact Hr.
    eexists. split; [reflexivity|]. unfold vec_eq. repeat constructor; ring.
  - rewrite ec_dfba_run, Hs, Hopt by exact Hr.
    eexists. split; [reflexivity|]. unfold vec_eq. repeat constructor; ring.
Qed.

(** C5: after [sc_dfba] and after [ec_dfba] both model objects, and with
    them the lower bounds of all their reactions, are exactly what they
    were before the call, for every state vector (also a too short one)
    and every outcome of the solver: optimal, not optimal, or raising. *)
Theorem dfba_step_restores_bounds (p : Params) (t : Q) (x : list Q) (w : World) :
  snd (sc_dfba solver p t x w) = w /\ snd (ec_dfba solver p t x w) = w.
Proof.
  split.
  - unfold sc_dfba, bind at 1, lift at 1.
    destruct (getitem x 3) as [e|x3]; [reflexivity|].
    unfold bind at 1, lift at 1.
    destruct (setitem _ _ _) as [e|xdot]; [reflexivity|].
    apply on_model_restores, with_model_restores. keep_scope.
  - unfold ec_dfba, bind at 1, lift at 1.
    destruct (getitem x 3) as [e|x3]; [reflexivity|].
    unfold bind at 1, lift at 1.
    destruct (setitem _ _ _) as [e|xdot]; [reflexivity|].
    apply on_model_restores, with_model_restores. keep_scope.
Qed.

(** C10: whatever solution the solver hands back, [ec_dfba] returns a
    vector whose slots 0, 1 and 2 (yeast biomass, E. coli biomass,
    glucose) are zero; slot 3 holds the oxygen transfer term only and
    slot 4 the ethanol exchange flux times [x[1]] times 0.046 on an
    optimal solution, zero otherwise. *)
Theorem ec_dfba_frame (p : Params) (t x0 x1 x2 x3 x4 : Q) (w : World)
    (sol : Solution) :
  has_reactions ec_exchanges (ec_model w) ->
  solver Ecoli (ec_bounds_at_solve p [x0; x1; x2; x3; x4] (ec_model w)) = inr sol ->
  exists xdot,
    ec_dfba solver p t [x0; x1; x2; x3; x4] w = (inr xdot, w) /\
    vec_eq xdot
      [0; 0; 0; kLa_o2 p * (10 - x3);
       if String.eqb (status sol) "optimal"
       then fluxes sol "EX_etoh_e" * 0.046 * x1 else 0].
Proof.
  intros Hr Hs. rewrite ec_dfba_run, Hs by exact Hr.
  destruct (status sol =? "optimal");
    (eexists; split; [reflexivity|]; unfold vec_eq; repeat constructor; ring).
Qed.

(** The two [with] blocks of [community_dfba] write to different slots,
    so their order does not show in the vector. *)
Lemma block_result_commute (x xd : list Q) (b0 b1 : string)
    (r1 r2 : exn + Solution) :
  to_option (match block_result 0 b0 x xd r1 with
             | inr v => block_result 1 b1 x v r2
             | inl e => inl e
             end) =
  to_option (match block_result 1 b1 x xd r2 with
             | inr v => block_result 0 b0 x v r1
             | inl e => inl e
             end).
Proof.
  destruct r1 as [e1|s1], r2 as [e2|s2]; cbn [block_result];
    repeat match goal with
           | |- context [String.eqb (status ?s) ?c] =>
               destruct (String.eqb (status s) c)
           end;
    repeat match goal with
           | |- context [getitem x ?i] => destruct (getitem x i)
           end;
    try reflexivity;
    try (apply iadd_commute; discriminate);
    try (destruct (iadd _ _ _); reflexivity).
Qed.

(** C7: running the two organisms of [community_dfba] in the other
    order (E. coli first) returns the same derivative vector, or fails
    to return one exactly when the notebook's order fails; both orders
    leave the models as they found them. *)
Theorem community_dfba_order_irrelevant (p : Params) (t : Q) (x : list Q)
    (w : World) :
  returned (community_dfba solver p t x w) =
  returned (community_dfba_swapped solver p t x w) /\
  snd (community_dfba solver p t x w) =
  snd (community_dfba_swapped solver p t x w).
Proof.
  unfold community_dfba, community_dfba_swapped, returned.
  rewrite !bind_lift.
  destruct (getitem x 3) as [e|x3]; [split; reflexivity|].
  rewrite !bind_lift.
  destruct (setitem _ _ _) as [e|xd]; [split; reflexivity|].
  rewrite bind_sc_block, bind_ec_block.
  pose proof (block_result_commute x xd "BIOMASS_SC5_notrace"
                "BIOMASS_Ec_iJO1366_core_53p95M"
                (solver Yeast (lower_bounds (sc_model w)))
                (solver Ecoli (lower_bounds (ec_model w)))) as Hc.
  destruct (block_result 0 _ x xd _) as [e|v0];
    destruct (block_result 1 _ x xd _) as [e'|v1];
    rewrite ?bind_sc_block, ?bind_ec_block;
    repeat match goal with
           | |- context [block_result ?i ?b x ?v ?r] =>
               destruct (block_result i b x v r)
           end;
    unfold ret; cbn [fst snd to_option] in *; split; congruence.
Qed.

(** C9: the oxygen slot of the vector [community_dfba] returns holds
    the transfer term [kLa_o2 * (10.0 - x[3])] once (not once per
    organism) and nothing else; at the saturation value [x[3] = 10.0]
    the term, and with it the slot, is zero. *)
Theorem community_dfba_o2_transfer_once (p : Params) (t x0 x1 x2 x3 x4 : Q)
    (w : World) (s1 s2 : Solution) :
  solver Yeast (lower_bounds (sc_model w)) = inr s1 ->
  solver Ecoli (lower_bounds (ec_model w)) = inr s2 ->
  exists xdot d,
    community_dfba solver p t [x0; x1; x2; x3; x4] w = (inr xdot, w) /\
    xdot !! 3%nat = Some d /\
    d == kLa_o2 p * (10 - x3) /\
    (x3 == 10 -> d == 0).
Proof.
  intros H1 H2. rewrite (community_dfba_run p t x0 x1 x2 x3 x4 w s1 s2 H1 H2).
  eexists. exists (kLa_o2 p * (10 - x3)).
  split; [reflexivity|]. split; [reflexivity|]. split; [reflexivity|].
  intros ->. ring.
Qed.

End Properties.

(** C2 (the code does not do this): at [x = [0.01, 0.01, 10, 10, 0]], with
    both toy solutions optimal and taking up glucose at rate 10,
    [community_dfba] returns zero in the glucose slot, where the sum of
    the two organisms' contributions, each computed as in [sc_dfba]
    (exchange flux times 0.18 times the organism's biomass), is not zero. *)
Theorem community_dfba_drops_exchange_fluxes :
  let s1 := toy_solution Yeast toy_bounds in
  let s2 := toy_solution Ecoli toy_ec_bounds in
  exists xdot,
    community_dfba toy_solver notebook_params 0 [0.01; 0.01; 10; 10; 0] toy_world
    = (inr xdot, toy_world) /\
    status s1 = "optimal" /\ status s2 = "optimal" /\
    vec_eq xdot [0.01; 0.003; 0; 0; 0] /\
    ~ 0 == fluxes s1 "EX_glc__D_e" * 0.18 * 0.01
           + fluxes s2 "EX_glc__D_e" * 0.18 * 0.01.
Proof.
  intros s1 s2.
  rewrite (community_dfba_run toy_solver notebook_params 0 0.01 0.01 10 10 0
             toy_world s1 s2 eq_refl eq_refl).
  eexists. split; [reflexivity|].
  split; [vm_compute; reflexivity|]. split; [vm_compute; reflexivity|].
  split.
  - unfold vec_eq. repeat constructor; vm_compute; reflexivity.
  - vm_compute. discriminate.
Qed.

(** C3: the kinetic bound is [- V_max * c / (K_m + c)] for [c > 0] and
    exactly [0] for [c <= 0]; in particular at ethanol concentration
    [x[4] = 0] the bound in force on ethanol uptake when [ec_dfba] calls
    the solver is zero, whatever [V_max_eth] and [K_m_eth] are. *)
Theorem kinetic_bound_cases (p : Params) (V_max K_m c x0 x1 x2 x3 : Q) (m : Model) :
  has_reactions ec_exchanges m ->
  (0 < c /\ kinetic_bound V_max K_m c == - (V_max * c / (K_m + c)) \/
   c <= 0 /\ kinetic_bound V_max K_m c = 0) /\
  kinetic_bound (V_max_eth p) (K_m_eth p) 0 = 0 /\
  bound_is (ec_bounds_at_solve p [x0; x1; x2; x3; 0] m) "EX_etoh_e" 0.
Proof.
  intros Hr. split; [|split].
  - unfold kinetic_bound, Qgtb.
    destruct (Qle_bool c 0) eqn:E; simpl.
    + right. split; [apply Qle_bool_iff, E|reflexivity].
    + left. split.
      * apply Qnot_le_lt. intros H. apply Qle_bool_iff in H. congruence.
      * unfold Qdiv. ring.
  - reflexivity.
  - rewrite ec_bounds_at_solve_eq by exact Hr.
    assert (Het := has_reactions_lookup _ _ "EX_etoh_e" Hr ltac:(simpl; tauto)).
    unfold ec_solver_input, bound_is.
    apply assign_lookup_eq. repeat apply assign_is_Some. exact Het.
Qed.



(* Decimal literals denote the nearest binary64 number, as in Python. *)
#[local] Set Warnings "-inexact-float".



(** C6 (as stated, refuted): at [x = [0.01, 0.01, 10, 10, 0]] with the
    notebook's parameters, the ammonium bound in force when [sc_dfba]
    calls the solver is not a value of the kinetic mapper with
    [V_max_nh4] at any concentration for any half-saturation constant
    [K_m > 0]; and the oxygen bound in force when [ec_dfba] calls the
    solver is not the mapper's value at [x[3] = 10]. *)
Lemma exchange_bounds_not_all_kinetic :
  (~ exists K_m c,
       0 < K_m /\
       bound_is (sc_bounds_at_solve notebook_params [0.01; 0.01; 10; 10; 0]
                   (sc_model toy_world))
         "EX_nh4_e" (kinetic_bound (V_max_nh4 notebook_params) K_m c)) /\
  ~ bound_is (ec_bounds_at_solve notebook_params [0.01; 0.01; 10; 10; 0]
                (ec_model toy_world))
      "EX_o2_e"
      (kinetic_bound (V_max_o2 notebook_params) (K_m_o2 notebook_params) 10).
Proof.
  split.
  - intros (K & c & HK & v & Hv & Hq).
    vm_compute in Hv. injection Hv as <-.
    cbn [V_max_nh4 notebook_params] in Hq.
    unfold kinetic_bound, Qgtb in Hq.
    destruct (Qle_bool c 0) eqn:E; cbn [negb] in Hq.
    + lra.
    + assert (Hc : 0 < c).
      { apply Qnot_le_lt. intros H. apply Qle_bool_iff in H. congruence. }
      assert (E2 : - (5) * c / (K + c) * (K + c) == - (5) * c) by (field; lra).
      rewrite <- Hq in E2. lra.
  - intros (v & Hv & Hq).
    vm_compute in Hv. injection Hv as <-.
    vm_compute in Hq. discriminate.
Qed.

(** C6 (amended): the assignments at the head of the [with] block do not
    raise, and when the solver is called [sc_dfba] has put in force the
    kinetic bound for glucose (from [x[2]]) and for oxygen (from [x[3]])
    and the constant [- V_max_nh4] for ammonium, which does not depend on
    the state; [ec_dfba] has put in force the kinetic bound for ethanol
    (from [x[4]]). *)
Theorem exchange_bounds_in_force (p : Params) (x0 x1 x2 x3 x4 : Q) (ms me : Model) :
  has_reactions sc_exchanges ms ->
  has_reactions ec_exchanges me ->
  let x := [x0; x1; x2; x3; x4] in
  fst (sc_set_bounds p x (model_enter ms)) = inr tt /\
  fst (ec_set_bounds p x (model_enter me)) = inr tt /\
  bound_is (sc_bounds_at_solve p x ms) "EX_glc__D_e"
    (kinetic_bound (V_max_glc p) (K_m_glc p) x2) /\
  bound_is (sc_bounds_at_solve p x ms) "EX_o2_e"
    (kinetic_bound (V_max_o2 p) (K_m_o2 p) x3) /\
  bound_is (sc_bounds_at_solve p x ms) "EX_nh4_e" (- V_max_nh4 p) /\
  bound_is (ec_bounds_at_solve p x me) "EX_etoh_e"
    (kinetic_bound (V_max_eth p) (K_m_eth p) x4).
Proof.
  intros Hs He x. unfold x.
  assert (Hglc := has_reactions_lookup _ _ "EX_glc__D_e" Hs ltac:(simpl; tauto)).
  assert (Ho2 := has_reactions_lookup _ _ "EX_o2_e" Hs ltac:(simpl; tauto)).
  assert (Hnh4 := has_reactions_lookup _ _ "EX_nh4_e" Hs ltac:(simpl; tauto)).
  assert (Het := has_reactions_lookup _ _ "EX_etoh_e" He ltac:(simpl; tauto)).
  rewrite sc_set_bounds_run, ec_set_bounds_run by (apply has_reactions_enter; assumption).
  rewrite sc_bounds_at_solve_eq, ec_bounds_at_solve_eq by assumption.
  unfold sc_solver_input, ec_solver_input, bound_is.
  split; [reflexivity|]. split; [reflexivity|]. repeat split.
  - rewrite !assign_lookup_ne by discriminate. apply assign_lookup_eq, Hglc.
  - rewrite assign_lookup_ne by discriminate.
    apply assign_lookup_eq, assign_is_Some, Ho2.
  - apply assign_lookup_eq. repeat apply assign_is_Some. exact Hnh4.
  - apply assign_lookup_eq. repeat apply assign_is_Some. exact Het.
Qed.

(** ** Concrete runs with the toy solver *)

Ltac toy_reactions :=
  unfold has_reactions, exchanges, sc_exchanges, ec_exchanges;
  repeat (constructor; [eexists; reflexivity|]); constructor.

(** The yeast step at the notebook's initial state. *)
Lemma sc_dfba_optimal_witness :
  let sol := toy_solution Yeast
               (sc_bounds_at_solve notebook_params [0.01; 0; 10; 10; 0]
                  (sc_model toy_world)) in
  status sol = "optimal" /\
  exists xdot,
    sc_dfba toy_solver notebook_params 0 [0.01; 0; 10; 10; 0] toy_world
    = (inr xdot, toy_world) /\
    vec_eq xdot
      [fluxes sol "BIOMASS_SC5_notrace" * 0.01;
       0;
       fluxes sol "EX_glc__D_e" * 0.01 * 0.18;
       fluxes sol "EX_o2_e" * 0.01 * 32 + kLa_o2 notebook_params * (10 - 10);
       fluxes sol "EX_etoh_e" * 0.01 * 0.046].
Proof.
  intros sol. split; [vm_compute; reflexivity|].
  apply (sc_dfba_optimal toy_solver notebook_params 0 0.01 0 10 10 0 toy_world sol).
  - toy_reactions.
  - reflexivity.
  - vm_compute; reflexivity.
Defined.

(** The yeast step with glucose exhausted: the toy solver is infeasible. *)
Lemma dfba_step_not_optimal_witness :
  exists xdot,
    sc_dfba toy_solver notebook_params 0 [0.01; 0; 0; 4; 1] toy_world
    = (inr xdot, toy_world) /\
    vec_eq xdot [0; 0; 0; kLa_o2 notebook_params * (10 - 4); 0].
Proof.
  apply (dfba_step_not_optimal toy_solver Yeast notebook_params 0 0.01 0 0 4 1
           toy_world
           (toy_solution Yeast
              (sc_bounds_at_solve notebook_params [0.01; 0; 0; 4; 1]
                 (sc_model toy_world)))).
  - toy_reactions.
  - reflexivity.
  - vm_compute. discriminate.
Defined.

(** The E. coli step with ethanol in the medium. *)
Lemma ec_dfba_frame_witness :
  let sol := toy_solution Ecoli
               (ec_bounds_at_solve notebook_params [0; 0.01; 10; 10; 1]
                  (ec_model toy_world)) in
  exists xdot,
    ec_dfba toy_solver notebook_params 0 [0; 0.01; 10; 10; 1] toy_world
    = (inr xdot, toy_world) /\
    vec_eq xdot
      [0; 0; 0; kLa_o2 notebook_params * (10 - 10);
       if String.eqb (status sol) "optimal"
       then fluxes sol "EX_etoh_e" * 0.046 * 0.01 else 0].
Proof.
  intros sol.
  apply (ec_dfba_frame toy_solver notebook_params 0 0 0.01 10 10 1 toy_world sol).
  - toy_reactions.
  - reflexivity.
Defined.

(** The community step at oxygen saturation. *)
Lemma community_dfba_o2_transfer_once_witness :
  exists xdot d,
    community_dfba toy_solver notebook_params 0 [0.01; 0.01; 10; 10; 0] toy_world
    = (inr xdot, toy_world) /\
    xdot !! 3%nat = Some d /\ d == 0.
Proof.
  destruct (community_dfba_o2_transfer_once toy_solver notebook_params
              0 0.01 0.01 10 10 0 toy_world
              (toy_solution Yeast toy_bounds) (toy_solution Ecoli toy_ec_bounds)
              eq_refl eq_refl) as (xdot & d & Hrun & Hd & _ & Hsat).
  exists xdot, d. split; [exact Hrun|]. split; [exact Hd|].
  apply Hsat. reflexivity.
Defined.

(** The ethanol bound of the E. coli toy model at [x[4] = 0]. *)
Lemma kinetic_bound_cases_witness :
  (0 < 2 /\ kinetic_bound 10 0.1 2 == - (10 * 2 / (0.1 + 2)) \/
   2 <= 0 /\ kinetic_bound 10 0.1 2 = 0) /\
  kinetic_bound 10 0.1 0 = 0 /\
  bound_is (ec_bounds_at_solve notebook_params [0; 0.01; 10; 10; 0]
              (ec_model toy_world)) "EX_etoh_e" 0.
Proof.
  apply (kinetic_bound_cases notebook_params 10 0.1 2 0 0.01 10 10
           (ec_model toy_world)).
  toy_reactions.
Defined.

(** The ammonium bound of the yeast toy model is [- V_max_nh4 = -5]. *)
Lemma exchange_bounds_in_force_witness :
  bound_is (sc_bounds_at_solve notebook_params [0.01; 0.01; 10; 10; 0]
              (sc_model toy_world)) "EX_nh4_e" (- (5)).
Proof.
  destruct (exchange_bounds_in_force notebook_params 0.01 0.01 10 10 0
              (sc_model toy_world) (ec_model toy_world))
    as (_ & _ & _ & _ & H & _).
  - toy_reactions.
  - toy_reactions.
  - exact H.
Defined.


(** A crash of the solver is passed on and the models are left as found. *)
Example sc_dfba_solver_crash :
  sc_dfba failing_solver notebook_params 0 [0.01; 0; 10; 10; 0] toy_world
  = (inl (SolverError "solver crashed"), toy_world).
Proof.
  rewrite sc_dfba_run by toy_reactions. reflexivity.
Qed.

(** A state vector that is too short raises before any model is touched. *)
Example sc_dfba_short_vector :
  sc_dfba toy_solver notebook_params 0 [0.01; 0; 10] toy_world
  = (inl (IndexError 3), toy_world).
Proof. reflexivity. Qed.

(** ** Rules for [ensures] *)

Lemma ensures_ret {S A} (P : A -> Prop) (a : A) :
  P a -> ensures (S := S) P (ret a).
Proof. intros H s a' s' E. injection E as <- _. exact H. Qed.

Lemma ensures_lift {S A} (P : A -> Prop) (r : exn + A) :
  (forall a, r = inr a -> P a) -> ensures (S := S) P (lift r).
Proof. intros H s a s' E. injection E as E _. apply H, E. Qed.

Lemma ensures_bind {S A B} (Q0 : A -> Prop) (P : B -> Prop)
    (c : Eff S A) (k : A -> Eff S B) :
  ensures Q0 c -> (forall a, Q0 a -> ensures P (k a)) -> ensures P (bind c k).
Proof.
  intros Hc Hk s b s' E. unfold bind in E.
  destruct (c s) as [[e|a] s1] eqn:Ec; [discriminate|].
  eapply Hk; [eapply Hc, Ec|exact E].
Qed.

Lemma ensures_any {S A} (c : Eff S A) : ensures (fun _ => True) c.
Proof. intros s a s' _. exact I. Qed.

Lemma ensures_with_model {A} (P : A -> Prop) (body : Eff Model A) :
  ensures P body -> ensures P (with_model body).
Proof.
  intros H m a m' E. unfold with_model in E.
  destruct (body (model_enter m)) as [r m1] eqn:Eb.
  injection E as -> _. eapply H, Eb.
Qed.

Lemma ensures_on_model {A} (P : A -> Prop) (o : organism) (c : Eff Model A) :
  ensures P c -> ensures P (on_model o c).
Proof.
  intros H w a w' E. unfold on_model in E.
  destruct (c (get_model o w)) as [r m1] eqn:Ec.
  injection E as -> _. eapply H, Ec.
Qed.

Lemma ensures_if {S A} (P : A -> Prop) (b : bool) (c1 c2 : Eff S A) :
  ensures P c1 -> ensures P c2 -> ensures P (if b then c1 else c2).
Proof. destruct b; auto. Qed.

Lemma length_zeros_like (x : list Q) : length (zeros_like x) = length x.
Proof. apply length_map. Qed.

Lemma setitem_length (x y : list Q) (i : nat) (v : Q) :
  setitem x i v = inr y -> length y = length x.
Proof.
  unfold setitem. destruct (decide _); [|discriminate].
  intros E. injection E as <-. apply length_insert.
Qed.

Lemma iadd_length (x y : list Q) (i : nat) (v : Q) :
  iadd x i v = inr y -> length y = length x.
Proof.
  unfold iadd. destruct (getitem x i); [discriminate|]. apply setitem_length.
Qed.

Lemma getitem_short (x : list Q) (i : nat) :
  (length x <= i)%nat -> getitem x i = inl (IndexError i).
Proof. intros H. unfold getitem. rewrite (lookup_ge_None_2 x i H). reflexivity. Qed.

Ltac length_step :=
  intros ? ?;
  match goal with
  | H : iadd _ _ _ = inr _ |- _ => apply iadd_length in H
  | H : setitem _ _ _ = inr _ |- _ => apply setitem_length in H
  end;
  rewrite ?length_zeros_like in *; congruence.

Ltac same_length n :=
  lazymatch goal with
  | |- ensures _ (on_model _ _) => apply ensures_on_model; same_length n
  | |- ensures _ (with_model _) => apply ensures_with_model; same_length n
  | |- ensures _ (if _ then _ else _) => apply ensures_if; same_length n
  | |- ensures _ (ret _) => apply ensures_ret; assumption
  | |- ensures _ (lift _) => apply ensures_lift; length_step
  | |- ensures _ (bind _ _) =>
      first
        [ eapply (ensures_bind (fun v : list Q => length v = n));
          [solve [same_length n] | intros ? ?; same_length n]
        | eapply ensures_bind; [apply ensures_any | intros ? _; same_length n] ]
  end.

(** ** Further properties of the right-hand sides *)

Section MoreProperties.

Variable solver : organism -> gmap string Q -> exn + Solution.

(** X3: whenever one of the three right-hand sides returns a vector, it has
    as many entries as the state vector it was given, as the ODE driver
    needs; this holds for state vectors of any length. *)
Theorem dfba_rhs_length (p : Params) (t : Q) (x : list Q) :
  ensures (fun v => length v = length x) (sc_dfba solver p t x) /\
  ensures (fun v => length v = length x) (ec_dfba solver p t x) /\
  ensures (fun v => length v = length x) (community_dfba solver p t x).
Proof.
  split; [|split].
  - unfold sc_dfba. same_length (length x).
  - unfold ec_dfba. same_length (length x).
  - unfold community_dfba, community_sc_block, community_ec_block.
    same_length (length x).
Qed.

Lemma sc_dfba_restores (p : Params) (t : Q) (x : list Q) (w : World) :
  snd (sc_dfba solver p t x w) = w.
Proof.
  unfold sc_dfba. rewrite bind_lift.
  destruct (getitem x 3) as [e|x3]; [reflexivity|].
  rewrite bind_lift.
  destruct (setitem _ _ _) as [e|xdot]; [reflexivity|].
  apply on_model_restores, with_model_restores.
  pose proof (keeps_scope_optimize solver). keep_scope.
Qed.

Lemma ec_dfba_restores (p : Params) (t : Q) (x : list Q) (w : World) :
  snd (ec_dfba solver p t x w) = w.
Proof.
  unfold ec_dfba. rewrite bind_lift.
  destruct (getitem x 3) as [e|x3]; [reflexivity|].
  rewrite bind_lift.
  destruct (setitem _ _ _) as [e|xdot]; [reflexivity|].
  apply on_model_restores, with_model_restores.
  pose proof (keeps_scope_optimize solver). keep_scope.
Qed.

(** X4: a state vector with fewer than four entries makes each of the three
    right-hand sides raise [IndexError] at [x[3]], before any model is
    entered and before the solver is asked, whatever the solver is. *)
Theorem dfba_rhs_short_vector (p : Params) (t : Q) (x : list Q) (w : World) :
  (length x <= 3)%nat ->
  sc_dfba solver p t x w = (inl (IndexError 3), w) /\
  ec_dfba solver p t x w = (inl (IndexError 3), w) /\
  community_dfba solver p t x w = (inl (IndexError 3), w).
Proof.
  intros H. unfold sc_dfba, ec_dfba, community_dfba.
  rewrite !bind_lift, (getitem_short x 3 H). repeat split.
Qed.

(** X6: an exception of the solver inside a single-organism step is passed
    on unchanged to the caller, and the model is left as it was found. *)
Theorem dfba_step_solver_error (o : organism) (p : Params)
    (t x0 x1 x2 x3 x4 : Q) (w : World) (e : exn) :
  has_reactions (exchanges o) (get_model o w) ->
  solver o (bounds_at_solve o p [x0; x1; x2; x3; x4] (get_model o w)) = inl e ->
  organism_step solver o p t [x0; x1; x2; x3; x4] w = (inl e, w).
Proof.
  intros Hr He.
  destruct o; cbn [organism_step exchanges bounds_at_solve get_model] in *.
  - rewrite sc_dfba_run, He by exact Hr. reflexivity.
  - rewrite ec_dfba_run, He by exact Hr. reflexivity.
Qed.

(** The value [community_dfba] computes from a five-entry state vector
    for every outcome of the two solver calls. *)
Lemma community_dfba_outcome (p : Params) (t x0 x1 x2 x3 x4 : Q) (w : World) :
  community_dfba solver p t [x0; x1; x2; x3; x4] w =
  (match solver Yeast (lower_bounds (sc_model w)) with
   | inl e => inl e
   | inr s1 =>
       match solver Ecoli (lower_bounds (ec_model w)) with
       | inl e => inl e
       | inr s2 =>
           inr [if String.eqb (status s1) "optimal"
                then 0 * x0 + fluxes s1 "BIOMASS_SC5_notrace" * x0 else 0 * x0;
                if String.eqb (status s2) "optimal"
                then 0 * x1 + fluxes s2 "BIOMASS_Ec_iJO1366_core_53p95M" * x1
                else 0 * x1;
                0 * x2; kLa_o2 p * (10 - x3); 0 * x4]
       end
   end, w).
Proof.
  destruct (solver Yeast (lower_bounds (sc_model w))) as [e|s1] eqn:H1.
  - unfold community_dfba. cbn [zeros_like map getitem lookup list_lookup].
    rewrite bind_lift_inr, setitem_ok by (simpl; lia).
    rewrite bind_lift_inr, bind_sc_block, H1. reflexivity.
  - destruct (solver Ecoli (lower_bounds (ec_model w))) as [e|s2] eqn:H2.
    + unfold community_dfba. cbn [zeros_like map getitem lookup list_lookup].
      rewrite bind_lift_inr, setitem_ok by (simpl; lia).
      rewrite bind_lift_inr, bind_sc_block, H1. unfold block_result.
      destruct (status s1 =? "optimal");
        cbn [getitem lookup list_lookup]; [erewrite iadd_ok by reflexivity|];
        rewrite bind_ec_block, H2; reflexivity.
    + apply (community_dfba_run solver p t x0 x1 x2 x3 x4 w s1 s2 H1 H2).
Qed.

(** X7: in [community_dfba] the yeast model is solved first: when its solver
    raises, that exception is the one the caller sees and the E. coli
    solver's outcome plays no part; an exception of the E. coli solver
    is seen only when the yeast solver returned.  The models are left as
    they were in both cases. *)
Theorem community_dfba_solver_error (p : Params) (t x0 x1 x2 x3 x4 : Q)
    (w : World) (e : exn) :
  solver Yeast (lower_bounds (sc_model w)) = inl e \/
  (exists s1, solver Yeast (lower_bounds (sc_model w)) = inr s1) /\
  solver Ecoli (lower_bounds (ec_model w)) = inl e ->
  community_dfba solver p t [x0; x1; x2; x3; x4] w = (inl e, w).
Proof.
  intros [H1|[[s1 H1] H2]]; rewrite community_dfba_outcome, H1, ?H2; reflexivity.
Qed.

Lemma sc_set_bounds_lookup (p : Params) (x : list Q) (x2 x3 : Q) (m : Model) :
  x !! 2%nat = Some x2 -> x !! 3%nat = Some x3 ->
  has_reactions sc_exchanges m ->
  sc_set_bounds p x m =
  (inr tt,
   set_state "EX_nh4_e" (- V_max_nh4 p)
     (set_state "EX_o2_e" (kinetic_bound (V_max_o2 p) (K_m_o2 p) x3)
        (set_state "EX_glc__D_e" (kinetic_bound (V_max_glc p) (K_m_glc p) x2) m))).
Proof.
  intros H2 H3 Hr.
  assert (Hglc := has_reactions_lookup _ _ "EX_glc__D_e" Hr ltac:(simpl; tauto)).
  assert (Ho2 := has_reactions_lookup _ _ "EX_o2_e" Hr ltac:(simpl; tauto)).
  assert (Hnh4 := has_reactions_lookup _ _ "EX_nh4_e" Hr ltac:(simpl; tauto)).
  unfold sc_set_bounds, getitem. rewrite H2, H3.
  rewrite bind_lift_inr, bind_set by auto with scope.
  rewrite bind_lift_inr, bind_set by auto with scope.
  apply set_lower_bound_ok. auto with scope.
Qed.

(** X8: a state vector with four entries gets through [sc_dfba] when the
    solution is not optimal, and raises [IndexError] at [xdot[4]] when it
    is: the ethanol slot is only touched in the optimal branch.  The
    model is restored either way. *)
Theorem sc_dfba_four_entries (p : Params) (t x0 x1 x2 x3 : Q) (w : World)
    (sol : Solution) :
  has_reactions sc_exchanges (sc_model w) ->
  solver Yeast (sc_bounds_at_solve p [x0; x1; x2; x3] (sc_model w)) = inr sol ->
  sc_dfba solver p t [x0; x1; x2; x3] w =
  (if String.eqb (status sol) "optimal"
   then inl (IndexError 4)
   else inr [0 * x0; 0 * x1; 0 * x2; kLa_o2 p * (10 - x3)], w).
Proof.
  intros Hr Hs.
  rewrite (surjective_pairing (sc_dfba solver p t [x0; x1; x2; x3] w)).
  rewrite sc_dfba_restores. f_equal.
  unfold sc_bounds_at_solve in Hs.
  rewrite (sc_set_bounds_lookup p _ x2 x3) in Hs
    by (try reflexivity; apply has_reactions_enter, Hr).
  unfold sc_dfba. cbn [zeros_like map getitem lookup list_lookup].
  rewrite bind_lift_inr, setitem_ok by (simpl; lia).
  rewrite bind_lift_inr.
  unfold on_model, with_model. cbn [get_model].
  unfold bind at 1.
  rewrite (sc_set_bounds_lookup p _ x2 x3)
    by (try reflexivity; apply has_reactions_enter, Hr).
  unfold bind at 1, optimize. cbn [snd] in Hs. rewrite Hs.
  destruct (status sol =? "optimal").
  - rewrite bind_lift_inr.
    do 3 (erewrite iadd_ok by reflexivity; rewrite bind_lift_inr).
    reflexivity.
  - reflexivity.
Qed.

(** X9: a state vector with four entries makes [ec_dfba] raise [IndexError]
    at [x[4]], inside the scope and after three bounds were assigned;
    the solver is not asked and the model is restored. *)
Theorem ec_dfba_four_entries (p : Params) (t x0 x1 x2 x3 : Q) (w : World) :
  has_reactions ["EX_glc__D_e"; "EX_o2_e"; "EX_nh4_e"] (ec_model w) ->
  ec_dfba solver p t [x0; x1; x2; x3] w = (inl (IndexError 4), w).
Proof.
  intros Hr.
  rewrite (surjective_pairing (ec_dfba solver p t [x0; x1; x2; x3] w)).
  rewrite ec_dfba_restores. f_equal.
  apply has_reactions_enter in Hr.
  assert (Hglc := has_reactions_lookup _ _ "EX_glc__D_e" Hr ltac:(simpl; tauto)).
  assert (Ho2 := has_reactions_lookup _ _ "EX_o2_e" Hr ltac:(simpl; tauto)).
  assert (Hnh4 := has_reactions_lookup _ _ "EX_nh4_e" Hr ltac:(simpl; tauto)).
  unfold ec_dfba. cbn [zeros_like map getitem lookup list_lookup].
  rewrite bind_lift_inr, setitem_ok by (simpl; lia).
  rewrite bind_lift_inr.
  unfold on_model, with_model. cbn [get_model].
  unfold bind at 1, ec_set_bounds.
  do 3 rewrite bind_set by auto with scope.
  reflexivity.
Qed.

End MoreProperties.

Lemma bind_ext {S A B} (c c' : Eff S A) (k k' : A -> Eff S B) (s : S) :
  c s = c' s -> (forall a s1, k a s1 = k' a s1) -> bind c k s = bind c' k' s.
Proof.
  intros Hc Hk. unfold bind. rewrite Hc.
  destruct (c' s) as [[e|a] s1]; [reflexivity|apply Hk].
Qed.

Lemma on_with_model_ext {A} (o : organism) (body body' : Eff Model A)
    (w w' : World) :
  get_model o w = get_model o w' ->
  (forall m, body m = body' m) ->
  fst (on_model o (with_model body) w) = fst (on_model o (with_model body') w').
Proof.
  intros Hm Hb. unfold on_model, with_model. rewrite Hm, Hb.
  destruct (body' _) as [r m1]. reflexivity.
Qed.

(** X10: a single-organism step reads and writes the model of its own
    organism only: with the same model for that organism and solvers that
    agree on it, the outcome is the same whatever the other organism's
    model and solver are. *)
Theorem dfba_step_isolated
    (solver solver' : organism -> gmap string Q -> exn + Solution)
    (o : organism) (p : Params) (t : Q) (x : list Q) (w w' : World) :
  (forall b, solver o b = solver' o b) ->
  get_model o w = get_model o w' ->
  fst (organism_step solver o p t x w) = fst (organism_step solver' o p t x w').
Proof.
  intros Hs Hm.
  destruct o; cbn [organism_step] in *;
    unfold sc_dfba, ec_dfba; rewrite !bind_lift;
    (destruct (getitem x 3) as [e|x3]; [reflexivity|]);
    rewrite !bind_lift;
    (destruct (setitem _ _ _) as [e|xdot]; [reflexivity|]);
    (apply on_with_model_ext; [exact Hm|]);
    intros m; (apply bind_ext; [reflexivity|]);
    intros _ m1; (apply bind_ext; [unfold optimize; rewrite Hs; reflexivity|]);
    reflexivity.
Qed.

(** The yeast step at the notebook's initial state does not notice a
    different E. coli model or a crashing E. coli solver. *)
Lemma dfba_step_isolated_witness :
  fst (sc_dfba toy_solver notebook_params 0 [0.01; 0; 10; 10; 0] toy_world) =
  fst (sc_dfba (fun o => match o with Yeast => toy_solver Yeast
                                  | Ecoli => failing_solver Ecoli end)
         notebook_params 0 [0.01; 0; 10; 10; 0]
         {| sc_model := sc_model toy_world; ec_model := sc_model toy_world |}).
Proof.
  apply (dfba_step_isolated toy_solver _ Yeast notebook_params 0
           [0.01; 0; 10; 10; 0] toy_world _); reflexivity.
Defined.

(** ** Which bounds a step changes *)

Lemma keeps_bound_set (id k : string) (v : Q) :
  id <> k -> keeps_bound k (set_lower_bound id v).
Proof.
  intros Hne m. unfold set_lower_bound.
  destruct (lower_bounds m !! id) as [old|]; [|reflexivity].
  destruct (contexts m) as [|h cs].
  - apply lookup_insert_ne, Hne.
  - destruct (Qeq_bool old v); [reflexivity|]. apply lookup_insert_ne, Hne.
Qed.

Lemma keeps_bound_lift {A} (k : string) (r : exn + A) : keeps_bound k (lift r).
Proof. intros m. reflexivity. Qed.

Lemma keeps_bound_bind {A B} (k : string) (c : Eff Model A) (f : A -> Eff Model B) :
  keeps_bound k c -> (forall a, keeps_bound k (f a)) -> keeps_bound k (bind c f).
Proof.
  intros Hc Hf m. unfold bind. specialize (Hc m).
  destruct (c m) as [[e|a] m1]; cbn [snd] in *; [exact Hc|].
  rewrite Hf. exact Hc.
Qed.

Ltac keep_bound :=
  repeat first
    [ apply keeps_bound_bind; [| intros ?]
    | apply keeps_bound_lift
    | apply keeps_bound_set; intros ?; tauto ].

(** X11: a single-organism step changes no bound but those of its own
    exchange reactions: when the solver is called, every other reaction
    of the model has the lower bound it had before the call.  This holds
    for every state vector, also one too short to finish the
    assignments. *)
Theorem dfba_step_bounds_frame (o : organism) (p : Params) (x : list Q)
    (m : Model) (id : string) :
  ~ In id (exchanges o) ->
  bounds_at_solve o p x m !! id = lower_bounds m !! id.
Proof.
  intros Hid.
  destruct o; cbn [bounds_at_solve exchanges] in *;
    unfold sc_bounds_at_solve, ec_bounds_at_solve.
  - assert (H : keeps_bound id (sc_set_bounds p x)).
    { unfold sc_set_bounds, sc_exchanges in *. simpl in Hid. keep_bound. }
    exact (H (model_enter m)).
  - assert (H : keeps_bound id (ec_set_bounds p x)).
    { unfold ec_set_bounds, ec_exchanges in *. simpl in Hid. keep_bound. }
    exact (H (model_enter m)).
Qed.

(** The yeast step leaves the ethanol bound of the yeast model alone. *)
Lemma dfba_step_bounds_frame_witness :
  bounds_at_solve Yeast notebook_params [0.01; 0; 10; 10; 0] (sc_model toy_world)
    !! "EX_etoh_e" = Some 0.
Proof.
  rewrite (dfba_step_bounds_frame Yeast notebook_params [0.01; 0; 10; 10; 0]
             (sc_model toy_world) "EX_etoh_e").
  - reflexivity.
  - simpl. intros [H|[H|[H|[]]]]; discriminate.
Defined.

(** ** Substrate limits of the steps *)

Lemma kinetic_bound_nonpos_arg (V_max K_m c : Q) :
  c <= 0 -> kinetic_bound V_max K_m c = 0.
Proof.
  intros Hc. unfold kinetic_bound, Qgtb.
  destruct (Qle_bool c 0) eqn:E; [reflexivity|].
  apply Qle_bool_iff in Hc. congruence.
Qed.

Lemma sc_bound_glc (p : Params) (x0 x1 x2 x3 x4 : Q) (m : Model) :
  has_reactions sc_exchanges m ->
  bound_is (sc_bounds_at_solve p [x0; x1; x2; x3; x4] m) "EX_glc__D_e"
    (kinetic_bound (V_max_glc p) (K_m_glc p) x2).
Proof.
  intros Hr. rewrite sc_bounds_at_solve_eq by exact Hr.
  assert (Hglc := has_reactions_lookup _ _ "EX_glc__D_e" Hr ltac:(simpl; tauto)).
  unfold sc_solver_input, bound_is.
  rewrite !assign_lookup_ne by discriminate. apply assign_lookup_eq, Hglc.
Qed.

Lemma sc_bound_o2 (p : Params) (x0 x1 x2 x3 x4 : Q) (m : Model) :
  has_reactions sc_exchanges m ->
  bound_is (sc_bounds_at_solve p [x0; x1; x2; x3; x4] m) "EX_o2_e"
    (kinetic_bound (V_max_o2 p) (K_m_o2 p) x3).
Proof.
  intros Hr. rewrite sc_bounds_at_solve_eq by exact Hr.
  assert (Ho2 := has_reactions_lookup _ _ "EX_o2_e" Hr ltac:(simpl; tauto)).
  unfold sc_solver_input, bound_is.
  rewrite assign_lookup_ne by discriminate.
  apply assign_lookup_eq, assign_is_Some, Ho2.
Qed.

Lemma ec_bound_etoh (p : Params) (x0 x1 x2 x3 x4 : Q) (m : Model) :
  has_reactions ec_exchanges m ->
  bound_is (ec_bounds_at_solve p [x0; x1; x2; x3; x4] m) "EX_etoh_e"
    (kinetic_bound (V_max_eth p) (K_m_eth p) x4).
Proof.
  intros Hr. rewrite ec_bounds_at_solve_eq by exact Hr.
  assert (Het := has_reactions_lookup _ _ "EX_etoh_e" Hr ltac:(simpl; tauto)).
  unfold ec_solver_input, bound_is.
  apply assign_lookup_eq. repeat apply assign_is_Some. exact Het.
Qed.

(** X12: with a solver whose fluxes respect the lower bounds it was given,
    [sc_dfba] never consumes a substrate that is used up: for yeast
    biomass [x[0] >= 0], the glucose derivative is not negative when
    [x[2] <= 0], and (for [kLa_o2 >= 0]) the oxygen derivative is not
    negative when [x[3] <= 0]. *)
Theorem sc_dfba_no_uptake_when_exhausted
    (solver : organism -> gmap string Q -> exn + Solution)
    (p : Params) (t x0 x1 x2 x3 x4 : Q) (w : World) (sol : Solution) :
  has_reactions sc_exchanges (sc_model w) ->
  respects_bounds solver Yeast ->
  solver Yeast (sc_bounds_at_solve p [x0; x1; x2; x3; x4] (sc_model w)) = inr sol ->
  0 <= x0 -> 0 <= kLa_o2 p ->
  exists xdot d2 d3,
    sc_dfba solver p t [x0; x1; x2; x3; x4] w = (inr xdot, w) /\
    xdot !! 2%nat = Some d2 /\ xdot !! 3%nat = Some d3 /\
    (x2 <= 0 -> 0 <= d2) /\ (x3 <= 0 -> 0 <= d3).
Proof.
  intros Hr Hresp Hs Hx0 Hk. rewrite sc_dfba_run, Hs by exact Hr.
  destruct (status sol =? "optimal") eqn:Eo.
  - apply String.eqb_eq in Eo.
    destruct (sc_bound_glc p x0 x1 x2 x3 x4 _ Hr) as (u2 & Hu2 & Eu2).
    destruct (sc_bound_o2 p x0 x1 x2 x3 x4 _ Hr) as (u3 & Hu3 & Eu3).
    pose proof (Hresp _ _ _ _ Hs Eo Hu2) as Hf2.
    pose proof (Hresp _ _ _ _ Hs Eo Hu3) as Hf3.
    do 3 eexists. split; [reflexivity|]. split; [reflexivity|].
    split; [reflexivity|]. split.
    + intros Hx2. rewrite Eu2, kinetic_bound_nonpos_arg in Hf2 by exact Hx2.
      assert (0 <= fluxes sol "EX_glc__D_e" * 0.18 * x0)
        by (apply Qmult_le_0_compat; [apply Qmult_le_0_compat|]; lra).
      lra.
    + intros Hx3. rewrite Eu3, kinetic_bound_nonpos_arg in Hf3 by exact Hx3.
      assert (0 <= fluxes sol "EX_o2_e" * 32 * x0)
        by (apply Qmult_le_0_compat; [apply Qmult_le_0_compat|]; lra).
      assert (0 <= kLa_o2 p * (10 - x3)) by (apply Qmult_le_0_compat; lra).
      lra.
  - do 3 eexists. split; [reflexivity|]. split; [reflexivity|].
    split; [reflexivity|]. split.
    + intros _. lra.
    + intros Hx3. apply Qmult_le_0_compat; lra.
Qed.

Lemma bound_solver_respects_bounds (o : organism) : respects_bounds bound_solver o.
Proof.
  intros b sol id v Hs _ Hb. injection Hs as <-.
  cbn [fluxes]. rewrite Hb. apply Qle_refl.
Qed.

(** An optimal run with glucose and oxygen both used up. *)
Lemma sc_dfba_no_uptake_when_exhausted_witness :
  status (match bound_solver Yeast
                  (sc_bounds_at_solve notebook_params [0.01; 0; 0; 0; 1]
                     (sc_model toy_world)) with
          | inr sol => sol
          | inl _ => {| status := ""; fluxes := fun _ => 0 |}
          end) = "optimal" /\
  exists xdot d2 d3,
    sc_dfba bound_solver notebook_params 0 [0.01; 0; 0; 0; 1] toy_world
    = (inr xdot, toy_world) /\
    xdot !! 2%nat = Some d2 /\ xdot !! 3%nat = Some d3 /\
    0 <= d2 /\ 0 <= d3.
Proof.
  split; [reflexivity|].
  destruct (sc_dfba_no_uptake_when_exhausted bound_solver notebook_params
              0 0.01 0 0 0 1 toy_world
              {| status := "optimal";
                 fluxes := fun id =>
                   default 0
                     (sc_bounds_at_solve notebook_params [0.01; 0; 0; 0; 1]
                        (sc_model toy_world) !! id) |})
    as (xdot & d2 & d3 & Hrun & H2 & H3 & Hd2 & Hd3).
  - toy_reactions.
  - apply bound_solver_respects_bounds.
  - reflexivity.
  - discriminate.
  - discriminate.
  - exists xdot, d2, d3. repeat split; try assumption.
    + apply Hd2. discriminate.
    + apply Hd3. discriminate.
Defined.

(** X14: with a solver whose fluxes respect the lower bounds, [ec_dfba] never
    consumes ethanol that is not there: for E. coli biomass [x[1] >= 0]
    and [x[4] <= 0] the ethanol derivative is not negative. *)
Theorem ec_dfba_no_uptake_when_exhausted
    (solver : organism -> gmap string Q -> exn + Solution)
    (p : Params) (t x0 x1 x2 x3 x4 : Q) (w : World) (sol : Solution) :
  has_reactions ec_exchanges (ec_model w) ->
  respects_bounds solver Ecoli ->
  solver Ecoli (ec_bounds_at_solve p [x0; x1; x2; x3; x4] (ec_model w)) = inr sol ->
  0 <= x1 -> x4 <= 0 ->
  exists xdot d4,
    ec_dfba solver p t [x0; x1; x2; x3; x4] w = (inr xdot, w) /\
    xdot !! 4%nat = Some d4 /\ 0 <= d4.
Proof.
  intros Hr Hresp Hs Hx1 Hx4. rewrite ec_dfba_run, Hs by exact Hr.
  destruct (status sol =? "optimal") eqn:Eo.
  - apply String.eqb_eq in Eo.
    destruct (ec_bound_etoh p x0 x1 x2 x3 x4 _ Hr) as (u & Hu & Eu).
    pose proof (Hresp _ _ _ _ Hs Eo Hu) as Hf.
    rewrite Eu, kinetic_bound_nonpos_arg in Hf by exact Hx4.
    do 2 eexists. split; [reflexivity|]. split; [reflexivity|].
    assert (0 <= fluxes sol "EX_etoh_e" * 0.046 * x1)
      by (apply Qmult_le_0_compat; [apply Qmult_le_0_compat|]; lra).
    lra.
  - do 2 eexists. split; [reflexivity|]. split; [reflexivity|]. lra.
Qed.

(** An optimal run without ethanol in the medium. *)
Lemma ec_dfba_no_uptake_when_exhausted_witness :
  exists xdot d4,
    ec_dfba bound_solver notebook_params 0 [0; 0.01; 10; 10; 0] toy_world
    = (inr xdot, toy_world) /\
    xdot !! 4%nat = Some d4 /\ 0 <= d4.
Proof.
  apply (ec_dfba_no_uptake_when_exhausted bound_solver notebook_params
           0 0 0.01 10 10 0 toy_world
           {| status := "optimal";
              fluxes := fun id =>
                default 0
                  (ec_bounds_at_solve notebook_params [0; 0.01; 10; 10; 0]
                     (ec_model toy_world) !! id) |}).
  - toy_reactions.
  - apply bound_solver_respects_bounds.
  - reflexivity.
  - discriminate.
  - discriminate.
Defined.

(** ** What the steps do not depend on *)

Lemma outcome_eq_vec (u v : list Q) : vec_eq u v -> outcome_eq (inr u) (inr v).
Proof. intros H. exact H. Qed.

(** X15: without biomass of its organism ([x[0] = 0] for yeast, [x[1] = 0]
    for E. coli) a single-organism step returns zero in every slot but
    the oxygen slot, which holds the transfer term, whatever solution
    the solver hands back; at oxygen saturation the state is at rest. *)
Theorem dfba_step_no_biomass
    (solver : organism -> gmap string Q -> exn + Solution)
    (o : organism) (p : Params) (t x0 x1 x2 x3 x4 : Q) (w : World)
    (sol : Solution) :
  has_reactions (exchanges o) (get_model o w) ->
  solver o (bounds_at_solve o p [x0; x1; x2; x3; x4] (get_model o w)) = inr sol ->
  nth (biomass_slot o) [x0; x1; x2; x3; x4] 0 == 0 ->
  exists xdot,
    organism_step solver o p t [x0; x1; x2; x3; x4] w = (inr xdot, w) /\
    vec_eq xdot [0; 0; 0; kLa_o2 p * (10 - x3); 0] /\
    (x3 == 10 -> vec_eq xdot [0; 0; 0; 0; 0]).
Proof.
  intros Hr Hs Hb.
  destruct o;
    cbn [organism_step exchanges bounds_at_solve get_model biomass_slot nth] in *.
  - rewrite sc_dfba_run, Hs by exact Hr.
    destruct (status sol =? "optimal");
      (eexists; split; [reflexivity|]; split;
       [|intros H3]; unfold vec_eq; repeat constructor;
       rewrite ?Hb, ?H3; ring).
  - rewrite ec_dfba_run, Hs by exact Hr.
    destruct (status sol =? "optimal");
      (eexists; split; [reflexivity|]; split;
       [|intros H3]; unfold vec_eq; repeat constructor;
       rewrite ?Hb, ?H3; ring).
Qed.

(** The initial state the notebook gives to [ec_dfba],
    [[0, 0, 10, 10, 0]], is at rest. *)
Lemma dfba_step_no_biomass_witness :
  exists xdot,
    ec_dfba toy_solver notebook_params 0 [0; 0; 10; 10; 0] toy_world
    = (inr xdot, toy_world) /\
    vec_eq xdot [0; 0; 0; 0; 0].
Proof.
  destruct (dfba_step_no_biomass toy_solver Ecoli notebook_params
              0 0 0 10 10 0 toy_world
              (toy_solution Ecoli
                 (ec_bounds_at_solve notebook_params [0; 0; 10; 10; 0]
                    (ec_model toy_world))))
    as (xdot & Hrun & _ & Hrest).
  - toy_reactions.
  - reflexivity.
  - reflexivity.
  - exists xdot. split; [exact Hrun|]. apply Hrest. reflexivity.
Defined.

(** X16: each single-organism step ignores the slots the notebook marks as
    not used by it: [sc_dfba] gives numerically the same outcome for any
    E. coli biomass [x[1]] and ethanol concentration [x[4]], and
    [ec_dfba] for any yeast biomass [x[0]] and glucose concentration
    [x[2]]. *)
Theorem dfba_step_unused_slots
    (solver : organism -> gmap string Q -> exn + Solution)
    (p : Params) (t x0 x1 x2 x3 x4 y0 y1 y2 y4 : Q) (w : World) :
  has_reactions sc_exchanges (sc_model w) ->
  has_reactions ec_exchanges (ec_model w) ->
  outcome_eq (fst (sc_dfba solver p t [x0; x1; x2; x3; x4] w))
             (fst (sc_dfba solver p t [x0; y1; x2; x3; y4] w)) /\
  outcome_eq (fst (ec_dfba solver p t [x0; x1; x2; x3; x4] w))
             (fst (ec_dfba solver p t [y0; x1; y2; x3; x4] w)).
Proof.
  intros Hs He. split.
  - rewrite !sc_dfba_run by exact Hs.
    rewrite !sc_bounds_at_solve_eq by exact Hs. cbn [fst].
    destruct (solver Yeast _) as [e|sol]; [reflexivity|].
    destruct (status sol =? "optimal");
      apply outcome_eq_vec; unfold vec_eq; repeat constructor; ring.
  - rewrite !ec_dfba_run by exact He.
    rewrite !ec_bounds_at_solve_eq by exact He. cbn [fst].
    destruct (solver Ecoli _) as [e|sol]; [reflexivity|].
    destruct (status sol =? "optimal");
      apply outcome_eq_vec; unfold vec_eq; repeat constructor; ring.
Qed.

Lemma dfba_step_unused_slots_witness :
  outcome_eq
    (fst (sc_dfba toy_solver notebook_params 0 [0.01; 0; 10; 10; 0] toy_world))
    (fst (sc_dfba toy_solver notebook_params 0 [0.01; 7; 10; 10; 3] toy_world)).
Proof.
  destruct (dfba_step_unused_slots toy_solver notebook_params
              0 0.01 0 10 10 0 0 7 0 3 toy_world) as [H _].
  - toy_reactions.
  - toy_reactions.
  - exact H.
Defined.

(** X17: [community_dfba] assigns no bounds before it solves: both solvers
    see the bounds stored in the models, so its outcome is numerically
    the same for any glucose concentration [x[2]] and ethanol
    concentration [x[4]]. *)
Theorem community_dfba_ignores_substrates
    (solver : organism -> gmap string Q -> exn + Solution)
    (p : Params) (t x0 x1 x2 x3 x4 y2 y4 : Q) (w : World) :
  outcome_eq (fst (community_dfba solver p t [x0; x1; x2; x3; x4] w))
             (fst (community_dfba solver p t [x0; x1; y2; x3; y4] w)).
Proof.
  rewrite !community_dfba_outcome. cbn [fst].
  destruct (solver Yeast _) as [e|s1]; [reflexivity|].
  destruct (solver Ecoli _) as [e|s2]; [reflexivity|].
  apply outcome_eq_vec. unfold vec_eq.
  repeat constructor; try reflexivity; ring.
Qed.

(** ** The exploratory FBA of the E. coli model *)

(** X18: the FBA of notebook lines 331-335 asks the solver with glucose and
    ethanol uptake closed (lower bound 0) and every other bound as
    stored in the model, returns whatever the solver returns, and leaves
    the model as it was. *)
Theorem ec_fba_no_glucose_run
    (solver : organism -> gmap string Q -> exn + Solution) (w : World) :
  has_reactions ["EX_glc__D_e"; "EX_etoh_e"] (ec_model w) ->
  exists b,
    ec_fba_no_glucose solver w = (solver Ecoli b, w) /\
    bound_is b "EX_glc__D_e" 0 /\
    bound_is b "EX_etoh_e" 0 /\
    forall id, id <> "EX_glc__D_e" -> id <> "EX_etoh_e" ->
               b !! id = lower_bounds (ec_model w) !! id.
Proof.
  intros Hr. apply has_reactions_enter in Hr.
  assert (Hglc := has_reactions_lookup _ _ "EX_glc__D_e" Hr ltac:(simpl; tauto)).
  assert (Het := has_reactions_lookup _ _ "EX_etoh_e" Hr ltac:(simpl; tauto)).
  set (S := set_state "EX_etoh_e" 0
              (set_state "EX_glc__D_e" 0 (model_enter (ec_model w)))).
  assert (Hb : lower_bounds S
               = assign "EX_etoh_e" 0
                   (assign "EX_glc__D_e" 0 (lower_bounds (ec_model w)))).
  { unfold S. repeat rewrite set_state_bounds by auto with scope. reflexivity. }
  assert (Hx : model_exit S = ec_model w).
  { apply scoped_exit. unfold S. auto with scope. }
  exists (lower_bounds S). split; [|split; [|split]].
  - unfold ec_fba_no_glucose, on_model, with_model. cbn [get_model].
    do 2 rewrite bind_set by auto with scope.
    fold S. unfold optimize. rewrite Hx. destruct w; reflexivity.
  - rewrite Hb. unfold bound_is.
    rewrite assign_lookup_ne by discriminate. apply assign_lookup_eq, Hglc.
  - rewrite Hb. unfold bound_is. apply assign_lookup_eq, assign_is_Some, Het.
  - intros id H1 H2. rewrite Hb.
    rewrite !assign_lookup_ne by congruence. reflexivity.
Qed.

Lemma ec_fba_no_glucose_run_witness :
  exists b,
    ec_fba_no_glucose toy_solver toy_world = (toy_solver Ecoli b, toy_world) /\
    bound_is b "EX_glc__D_e" 0 /\
    bound_is b "EX_etoh_e" 0 /\
    forall id, id <> "EX_glc__D_e" -> id <> "EX_etoh_e" ->
               b !! id = lower_bounds (ec_model toy_world) !! id.
Proof.
  apply (ec_fba_no_glucose_run toy_solver toy_world). toy_reactions.
Defined.

(** ** Concrete runs for the further properties *)

Lemma dfba_rhs_short_vector_witness :
  sc_dfba toy_solver notebook_params 0 [0.01; 0; 10] toy_world
    = (inl (IndexError 3), toy_world) /\
  ec_dfba toy_solver notebook_params 0 [0.01; 0; 10] toy_world
    = (inl (IndexError 3), toy_world) /\
  community_dfba toy_solver notebook_params 0 [0.01; 0; 10] toy_world
    = (inl (IndexError 3), toy_world).
Proof.
  apply (dfba_rhs_short_vector toy_solver notebook_params 0 [0.01; 0; 10] toy_world).
  simpl. lia.
Defined.

Lemma dfba_step_solver_error_witness :
  sc_dfba failing_solver notebook_params 0 [0.01; 0; 10; 10; 0] toy_world
  = (inl (SolverError "solver crashed"), toy_world).
Proof.
  apply (dfba_step_solver_error failing_solver Yeast notebook_params
           0 0.01 0 10 10 0 toy_world (SolverError "solver crashed")).
  - toy_reactions.
  - reflexivity.
Defined.

(** The yeast solver crashes, the E. coli solver would not. *)
Lemma community_dfba_solver_error_witness :
  community_dfba
    (fun o => match o with Yeast => failing_solver Yeast
                        | Ecoli => toy_solver Ecoli end)
    notebook_params 0 [0.01; 0.01; 10; 10; 0] toy_world
  = (inl (SolverError "solver crashed"), toy_world).
Proof.
  apply (community_dfba_solver_error _ notebook_params 0 0.01 0.01 10 10 0
           toy_world (SolverError "solver crashed")).
  left. reflexivity.
Defined.

Lemma sc_dfba_four_entries_witness :
  sc_dfba toy_solver notebook_params 0 [0.01; 0; 10; 10] toy_world
  = (inl (IndexError 4), toy_world).
Proof.
  rewrite (sc_dfba_four_entries toy_solver notebook_params 0 0.01 0 10 10
             toy_world
             (toy_solution Yeast
                (sc_bounds_at_solve notebook_params [0.01; 0; 10; 10]
                   (sc_model toy_world)))).
  - reflexivity.
  - toy_reactions.
  - reflexivity.
Defined.

Lemma ec_dfba_four_entries_witness :
  ec_dfba toy_solver notebook_params 0 [0; 0.01; 10; 10] toy_world
  = (inl (IndexError 4), toy_world).
Proof.
  apply (ec_dfba_four_entries toy_solver notebook_params 0 0 0.01 10 10 toy_world).
  toy_reactions.
Defined.
